(** * boundaries.h: cells that grow, divide and are kept inside an x/y range

    A shallow embedding of [src/boundaries.h]: the [MyCell] simulation
    object, the [GrowthModule] biology module and the [Simulate] set-up, with
    the properties of the behaviour proved about the embedded code.

    - [double] is IEEE 754 binary64: Rocq's primitive [float].
    - [int] ([cell_color_]) is a [Z]; the code only copies it.
    - A [T* cell] is a handle (an index) into the resource manager's list of
      cells; a method call through the pointer reads or updates that slot.
    - The BioDynaMo library itself ([Cell], the scheduler, the random
      generator) is not part of the source file: what the code calls of it
      is a parameter ([CellModel], and the variables of [Section Setup]). *)

From Stdlib Require Import ZArith Floats Bool Lia.
From stdpp Require Import base option list.

Local Open Scope float_scope.
Set Warnings "-inexact-float".

(** ** Constants (boundaries.h, lines 19-35) *)

Definition simulation_steps : Z := 600.

Definition x_range : float := 150.
Definition y_range : float := 150.
Definition z_range : float := 4500.
Definition simulation_cube_dim : float := 4500.

Definition z_pos_init : float := 0 - (simulation_cube_dim / 2).

Definition x_min : float := - x_range / 2.
Definition x_max : float := x_range / 2.
Definition y_min : float := - x_range / 2.
Definition y_max : float := x_range / 2.

Definition num_cells : nat := 10.

(** ** std::array<double, 3> *)

Record array3 : Type := Array3 { at0 : float; at1 : float; at2 : float }.

Definition set_at0 (v : float) (a : array3) : array3 :=
  {| at0 := v; at1 := at1 a; at2 := at2 a |}.
Definition set_at1 (v : float) (a : array3) : array3 :=
  {| at0 := at0 a; at1 := v; at2 := at2 a |}.

(** ** The simulation objects *)

(** The biology modules of this simulation (the CTList of line 135). *)
Inductive BiologyModule : Type := GrowthModule.

(** The part of the library's [Cell] that the source reads or writes through
    its getters and setters. *)
Record Cell : Type := MkCell {
  position_ : array3;
  diameter_ : float;
  adherence_ : float;
  mass_ : float;
  biology_modules_ : list BiologyModule
}.

Definition Cell_SetPosition (p : array3) (c : Cell) : Cell :=
  {| position_ := p; diameter_ := diameter_ c; adherence_ := adherence_ c;
     mass_ := mass_ c; biology_modules_ := biology_modules_ c |}.
Definition Cell_SetDiameter (d : float) (c : Cell) : Cell :=
  {| position_ := position_ c; diameter_ := d; adherence_ := adherence_ c;
     mass_ := mass_ c; biology_modules_ := biology_modules_ c |}.
Definition Cell_SetAdherence (a : float) (c : Cell) : Cell :=
  {| position_ := position_ c; diameter_ := diameter_ c; adherence_ := a;
     mass_ := mass_ c; biology_modules_ := biology_modules_ c |}.
Definition Cell_SetMass (m : float) (c : Cell) : Cell :=
  {| position_ := position_ c; diameter_ := diameter_ c;
     adherence_ := adherence_ c; mass_ := m;
     biology_modules_ := biology_modules_ c |}.
Definition Cell_AddBiologyModule (b : BiologyModule) (c : Cell) : Cell :=
  {| position_ := position_ c; diameter_ := diameter_ c;
     adherence_ := adherence_ c; mass_ := mass_ c;
     biology_modules_ := biology_modules_ c ++ [b] |}.

(** [MyCell] extends [Cell] by [can_divide_] and [cell_color_] (lines 41-77). *)
Record MyCell : Type := MkMyCell {
  base : Cell;
  can_divide_ : bool;
  cell_color_ : Z
}.

Definition with_base (b : Cell) (c : MyCell) : MyCell :=
  {| base := b; can_divide_ := can_divide_ c; cell_color_ := cell_color_ c |}.

(** Lines 66-70: the setters of the two new members. *)
Definition MyCell_SetCanDivide (d : bool) (c : MyCell) : MyCell :=
  {| base := base c; can_divide_ := d; cell_color_ := cell_color_ c |}.
Definition MyCell_SetCellColor (cell_color : Z) (c : MyCell) : MyCell :=
  {| base := base c; can_divide_ := can_divide_ c; cell_color_ := cell_color |}.

(** ** The resource manager, the calls made on it, and the monad of a run *)

(** A handle is the index of a cell in the resource manager. *)
Abbreviation Handle := nat (only parsing).

(** The calls that change a simulation object, as the behaviour issues them. *)
Inductive Call : Type :=
| CallChangeVolume (cell : Handle) (speed : float)
| CallDivide (cell daughter : Handle)
| CallSetCellColor (cell : Handle) (cell_color : Z)
| CallSetCanDivide (cell : Handle) (d : bool)
| CallSetPosition (cell : Handle) (coord : array3).

Record Sim : Type := MkSim {
  rm : list MyCell;      (* the cells, in the order they were pushed *)
  calls : list Call      (* the calls issued so far, oldest first *)
}.

(** A computation reads and updates the simulation; it has no result where a
    handle does not name a cell. *)
Definition M (A : Type) : Type := Sim -> option (A * Sim).

Definition ret {A} (a : A) : M A := fun st => Some (a, st).
Definition bind {A B} (m : M A) (k : A -> M B) : M B :=
  fun st => match m st with
            | Some (a, st') => k a st'
            | None => None
            end.

Declare Scope sim_scope.
Delimit Scope sim_scope with sim.
Notation "x <~ m ;; k" := (bind m (fun x => k))
  (at level 62, m at next level, right associativity) : sim_scope.
Notation "m ;;; k" := (bind m (fun _ => k))
  (at level 62, right associativity) : sim_scope.
Local Open Scope sim_scope.

(** Read a cell through its handle. *)
Definition deref (h : Handle) : M MyCell :=
  fun st => match rm st !! h with
            | Some c => Some (c, st)
            | None => None
            end.

(** Update a cell through its handle and record the call. *)
Definition update (h : Handle) (f : MyCell -> MyCell) (c : Call) : M unit :=
  fun st => match rm st !! h with
            | Some m => Some (tt, {| rm := <[h := f m]> (rm st);
                                     calls := calls st ++ [c] |})
            | None => None
            end.

Definition GetDiameter (h : Handle) : M float :=
  c <~ deref h ;; ret (diameter_ (base c)).
Definition GetPosition (h : Handle) : M array3 :=
  c <~ deref h ;; ret (position_ (base c)).
Definition GetCanDivide (h : Handle) : M bool :=
  c <~ deref h ;; ret (can_divide_ c).
Definition GetCellColor (h : Handle) : M Z :=
  c <~ deref h ;; ret (cell_color_ c).

Definition SetPosition (h : Handle) (coord : array3) : M unit :=
  update h (fun c => with_base (Cell_SetPosition coord (base c)) c)
         (CallSetPosition h coord).
Definition SetCanDivide (h : Handle) (d : bool) : M unit :=
  update h (MyCell_SetCanDivide d) (CallSetCanDivide h d).
Definition SetCellColor (h : Handle) (cell_color : Z) : M unit :=
  update h (MyCell_SetCellColor cell_color) (CallSetCellColor h cell_color).

(** ** The behaviour, over the library's mechanical model *)

(** What the code calls of the library's [Cell]. *)
Record CellModel : Type := MkCellModel {
  (** [Cell::ChangeVolume(speed)]: what it does to the [Cell] part. *)
  Cell_ChangeVolume : float -> Cell -> Cell;
  (** [Base(event, mother)] of line 54: the [Cell] part of the daughter, and
      the [Cell] part of the mother after it (the mother is not const). *)
  Cell_division_ctor : Cell -> Cell * Cell;
  (** [Base::EventHandler(event, daughter)] of line 62: the [Cell] parts of
      mother and daughter after it. *)
  Cell_EventHandler : Cell -> Cell -> Cell * Cell
}.

Section Behaviour.

Variable lib : CellModel.

(** Lines 53-57: the daughter is built from the mother and copies
    [can_divide_] and [cell_color_] from her. Result: daughter, mother. *)
Definition MyCellExt_division (mother : MyCell) : MyCell * MyCell :=
  let '(daughter_base, mother_base) := Cell_division_ctor lib (base mother) in
  ({| base := daughter_base;
      can_divide_ := can_divide_ mother;
      cell_color_ := cell_color_ mother |},
   with_base mother_base mother).

(** Lines 60-63: the mother's event handler only calls the one of [Cell].
    Result: mother, daughter. *)
Definition EventHandler (mother daughter : MyCell) : MyCell * MyCell :=
  let '(mother_base, daughter_base) :=
    Cell_EventHandler lib (base mother) (base daughter) in
  (with_base mother_base mother, with_base daughter_base daughter).

Definition ChangeVolume (h : Handle) (speed : float) : M unit :=
  update h (fun c => with_base (Cell_ChangeVolume lib speed (base c)) c)
         (CallChangeVolume h speed).

(** Modelled from the spec: [Cell::Divide] is the library's and is missing
    from the source. By section 4.1 it constructs one daughter from the
    mother (here with the division constructor of lines 53-57), the mother
    remains in the store, changed by the interaction model (here through
    her event handler of lines 60-63), and the daughter is appended to the
    store; the caller gets the daughter's handle. *)
Definition Divide (h : Handle) : M Handle :=
  fun st =>
    match rm st !! h with
    | Some mother =>
        let '(daughter, mother1) := MyCellExt_division mother in
        let '(mother2, daughter2) := EventHandler mother1 daughter in
        let d := length (rm st) in
        Some (d, {| rm := <[h := mother2]> (rm st) ++ [daughter2];
                    calls := calls st ++ [CallDivide h d] |})
    | None => None
    end.

(** Lines 91-101 of [GrowthModule::Run]: grow, or divide. *)
Definition growth_or_division (cell : Handle) : M unit :=
  diameter <~ GetDiameter cell ;;
  if diameter <? 8 then
    ChangeVolume cell 300
  else
    can_divide <~ GetCanDivide cell ;;
    if can_divide then
      daughter <~ Divide cell ;;
      cell_color <~ GetCellColor cell ;;
      SetCellColor daughter cell_color ;;;
      SetCanDivide daughter true
    else ret tt.

(** Lines 105-121: the two tests on [coord[0]] and [coord[1]]; the result
    is the new [coord] and [update_position]. *)
Definition bound_x (s : array3 * bool) : array3 * bool :=
  let '(coord, update_position) := s in
  if x_max - 0.01 <? at0 coord then (set_at0 (x_max - 0.01) coord, true)
  else if at0 coord <? x_min + 0.01 then (set_at0 (x_max + 0.01) coord, true)
  else (coord, update_position).

Definition bound_y (s : array3 * bool) : array3 * bool :=
  let '(coord, update_position) := s in
  if y_max - 0.01 <? at1 coord then (set_at1 (y_max - 0.01) coord, true)
  else if at1 coord <? y_min + 0.01 then (set_at1 (x_max + 0.01) coord, true)
  else (coord, update_position).

(** Lines 104-124 of [GrowthModule::Run]: bound the cell to the x/y range. *)
Definition bound_position (cell : Handle) : M unit :=
  coord <~ GetPosition cell ;;
  let update_position := false in
  let '(coord, update_position) := bound_y (bound_x (coord, update_position)) in
  if update_position then SetPosition cell coord else ret tt.

(** Lines 90-125: [GrowthModule::Run]. *)
Definition Run (cell : Handle) : M unit :=
  growth_or_division cell ;;;
  bound_position cell.

End Behaviour.

(** ** The set-up (lines 139-181) *)

(** The parameters that [set_param] writes. *)
Record Param : Type := MkParam {
  bound_space_ : bool;
  min_bound_ : float;
  max_bound_ : float;
  run_mechanical_interactions_ : bool
}.

(** Lines 141-146. *)
Definition set_param (param : Param) : Param :=
  {| bound_space_ := true;
     min_bound_ := - (simulation_cube_dim / 2);
     max_bound_ := simulation_cube_dim / 2;
     run_mechanical_interactions_ := true |}.

(** Lines 47-50: a cell made from a position alone; [cell_init] is the
    library's default-initialised [Cell]. *)
Definition MyCellExt_position (cell_init : Cell) (position : array3) : MyCell :=
  {| base := Cell_SetPosition position cell_init;
     cell_color_ := 0;
     can_divide_ := true |}.

Section Setup.

(** The state of the library's random number generator, and a draw. *)
Variable Rand : Type.
Variable Uniform : float -> float -> Rand -> float * Rand.

Variable cell_init : Cell.

Record Simulation : Type := MkSimulation {
  param : Param;
  cells : list MyCell;
  random : Rand
}.

(** [Scheduler::Simulate(steps)], the library's. *)
Variable Scheduler_Simulate : Z -> Simulation -> Simulation.

(** Lines 160-172: the body of the loop; the new cell and the generator. *)
Definition create_cell (rng : Rand) : MyCell * Rand :=
  let '(x_coord, rng) := Uniform x_min x_max rng in
  let '(y_coord, rng) := Uniform y_min y_max rng in
  let z_coord := z_pos_init in
  let cell := MyCellExt_position cell_init (Array3 x_coord y_coord z_coord) in
  let cell := with_base (Cell_SetDiameter 6 (base cell)) cell in
  let cell := with_base (Cell_SetAdherence 0.0001 (base cell)) cell in
  let cell := with_base (Cell_SetMass 0.1 (base cell)) cell in
  let cell := with_base (Cell_AddBiologyModule GrowthModule (base cell)) cell in
  (cell, rng).

(** Lines 159-173: [n] more rounds of the loop. *)
Fixpoint create_cells (n : nat) (s : Simulation) : Simulation :=
  match n with
  | O => s
  | S n' =>
      let '(cell, rng) := create_cell (random s) in
      create_cells n' {| param := param s;
                          cells := cells s ++ [cell];
                          random := rng |}
  end.

(** Lines 148-173: the simulation as it is handed to the scheduler. *)
Definition Simulate_setup (default_param : Param) (seed : Rand) : Simulation :=
  let simulation :=
    {| param := set_param default_param; cells := []; random := seed |} in
  create_cells num_cells simulation.

(** Lines 139-181: the simulation after the run, and the return value. *)
Definition Simulate (default_param : Param) (seed : Rand) : Simulation * Z :=
  let simulation := Simulate_setup default_param seed in
  let simulation := Scheduler_Simulate simulation_steps simulation in
  (simulation, 0%Z).

End Setup.

(** ** Vocabulary of the properties *)

(** What one test of the boundary check does to a coordinate [v] that is
    compared with the upper bound [hi] and the lower bound [lo]. *)
Definition bounded (lo hi v : float) : float :=
  if hi - 0.01 <? v then hi - 0.01
  else if v <? lo + 0.01 then x_max + 0.01
  else v.

(** [v] lies strictly between the two margins. *)
Definition strictly_inside (lo hi v : float) : Prop :=
  (lo + 0.01 <? v) = true /\ (v <? hi - 0.01) = true.

Definition is_SetPosition (c : Call) : bool :=
  match c with CallSetPosition _ _ => true | _ => false end.

Definition is_Divide (c : Call) : bool :=
  match c with CallDivide _ _ => true | _ => false end.

(** A simulation with every [cell_color_] blanked, in the cells and in the
    arguments of the recorded calls. *)
Definition erase_call (c : Call) : Call :=
  match c with
  | CallSetCellColor h _ => CallSetCellColor h 0
  | _ => c
  end.

Definition erase_color (st : Sim) : Sim :=
  {| rm := MyCell_SetCellColor 0 <$> rm st;
     calls := erase_call <$> calls st |}.

(** The cell after [SetPosition(coord)]. *)
Definition moved (coord : array3) (m : MyCell) : MyCell :=
  with_base (Cell_SetPosition coord (base m)) m.

(** The cell after [ChangeVolume(speed)]. *)
Definition grown (lib : CellModel) (speed : float) (m : MyCell) : MyCell :=
  with_base (Cell_ChangeVolume lib speed (base m)) m.

(** Mother and daughter as [Divide] leaves them. *)
Definition divided (lib : CellModel) (mother : MyCell) : MyCell * MyCell :=
  let '(daughter, mother1) := MyCellExt_division lib mother in
  EventHandler lib mother1 daughter.

(** The daughter after the two setters of lines 98-99. *)
Definition daughter_of (lib : CellModel) (mother : MyCell) : MyCell :=
  MyCell_SetCanDivide true
    (MyCell_SetCellColor (cell_color_ mother) (snd (divided lib mother))).

(** The position that the boundary check leaves for a cell read at [coord]. *)
Definition bounded_coord (coord : array3) : array3 :=
  Array3 (bounded x_min x_max (at0 coord)) (bounded y_min y_max (at1 coord))
         (at2 coord).

Definition is_SetPosition_of (cell : Handle) (c : Call) : bool :=
  match c with CallSetPosition h _ => Nat.eqb h cell | _ => false end.

Definition not_SetPosition (c : Call) : bool := negb (is_SetPosition c).

(** The categories in [after] come from [before]: a cell that was in the
    store has the category it had, a cell made since has the one of
    [mother]. *)
Definition colors_from (mother : MyCell) (before after : Sim) : Prop :=
  forall h c,
    rm after !! h = Some c ->
    cell_color_ c = match rm before !! h with
                    | Some c0 => cell_color_ c0
                    | None => cell_color_ mother
                    end.

Arguments Simulation Rand : clear implicits.
Arguments param {Rand} s.
Arguments cells {Rand} s.
Arguments random {Rand} s.
Arguments create_cell {Rand} Uniform cell_init rng.
Arguments create_cells {Rand} Uniform cell_init n s.
Arguments Simulate_setup {Rand} Uniform cell_init default_param seed.
Arguments Simulate {Rand} Uniform cell_init Scheduler_Simulate default_param seed.

Section SetupVocabulary.

Variable Rand : Type.
Variable Uniform : float -> float -> Rand -> float * Rand.
Variable cell_init : Cell.

(** One x drawn between x_min and x_max, then one y between y_min and y_max;
    the generator after the two draws. *)
Definition draw_xy (rng : Rand) : float * float * Rand :=
  let '(x, rng) := Uniform x_min x_max rng in
  let '(y, rng) := Uniform y_min y_max rng in
  (x, y, rng).

(** The generator after [i] such pairs of draws. *)
Definition generator_at (i : nat) (seed : Rand) : Rand :=
  Nat.iter i (fun rng => snd (draw_xy rng)) seed.

(** The [Cell] part of an initial cell placed by the draws from [rng]. *)
Definition initial_cell (rng : Rand) : Cell :=
  let '(x, y, _) := draw_xy rng in
  {| position_ := Array3 x y z_pos_init;
     diameter_ := 6;
     adherence_ := 0.0001;
     mass_ := 0.1;
     biology_modules_ := biology_modules_ cell_init ++ [GrowthModule] |}.

End SetupVocabulary.

Arguments draw_xy {Rand} Uniform rng.
Arguments generator_at {Rand} Uniform i seed.
Arguments initial_cell {Rand} Uniform cell_init rng.

(** ** Sample data *)

(** A mechanical model for the examples: growing adds 1 to the diameter; a
    division halves the diameter of both cells and puts the daughter at
    x = 100, outside the x/y range. *)
Definition sample_lib : CellModel :=
  {| Cell_ChangeVolume := fun speed c => Cell_SetDiameter (diameter_ c + 1) c;
     Cell_division_ctor := fun mother =>
       (Cell_SetPosition (Array3 100 0 0)
          (Cell_SetDiameter (diameter_ mother / 2) mother),
        mother);
     Cell_EventHandler := fun mother daughter =>
       (Cell_SetDiameter (diameter_ mother / 2) mother, daughter) |}.

Definition sample_cell (x y z diameter : float) (can_divide : bool)
    (cell_color : Z) : MyCell :=
  {| base := {| position_ := Array3 x y z; diameter_ := diameter;
                adherence_ := 0.0001; mass_ := 0.1;
                biology_modules_ := [GrowthModule] |};
     can_divide_ := can_divide;
     cell_color_ := cell_color |}.

(** Handle 0: small, beyond the upper x bound and below the lower y bound.
    Handle 1: large, can divide, inside the range, category -5.
    Handle 2: large, cannot divide, below the lower x bound, category 1. *)
Definition sample_sim : Sim :=
  {| rm := [sample_cell 80 (-80) 5000 6 true 0;
            sample_cell 10 20 (-2250) 9 true (-5);
            sample_cell (-80) 0 (-2250) 8 false 1];
     calls := [] |}.

(** The same simulation with other categories. *)
Definition sample_sim_recolored : Sim :=
  {| rm := [sample_cell 80 (-80) 5000 6 true 7;
            sample_cell 10 20 (-2250) 9 true 3;
            sample_cell (-80) 0 (-2250) 8 false 1];
     calls := [] |}.

(** A generator for the examples: its state is a counter, and a draw is the
    lower bound plus the counter. *)
Definition sample_Uniform (low high : float) (rng : Z) : float * Z :=
  (low + PrimFloat.of_uint63 (Uint63.of_Z rng), (rng + 1)%Z).

Definition sample_cell_init : Cell :=
  {| position_ := Array3 0 0 0; diameter_ := 0; adherence_ := 0; mass_ := 0;
     biology_modules_ := [] |}.

(** ** Vocabulary of the further properties *)

(** Lines 105-121 as a whole: the new [coord] and [update_position] for a
    cell that line 104 read at [coord]. *)
Definition check_bounds (coord : array3) : array3 * bool :=
  bound_y (bound_x (coord, false)).

(** The cells of the set-up in the resource manager, before any call. *)
Definition handed_over {Rand : Type} (s : Simulation Rand) : Sim :=
  {| rm := cells s; calls := [] |}.

(** A sample position with no x and no y. *)
Definition sample_nan_coord : array3 := Array3 nan nan 3.

(** A sample simulation of one cell whose diameter is NaN. *)
Definition sample_nan_sim : Sim :=
  {| rm := [sample_cell 10 20 0 nan true 4]; calls := [] |}.

(** ** binary64 comparisons *)

Lemma SFcompare_antisym (x y : spec_float) :
  SFcompare y x = CompOpp <$> SFcompare x y.
Proof.
  destruct x as [s1| s1 | | s1 m1 e1], y as [s2 | s2 | | s2 m2 e2]; simpl;
    try reflexivity;
    try (destruct s1; reflexivity); try (destruct s2; reflexivity);
    try (destruct s1, s2; reflexivity).
  destruct s1, s2; try reflexivity;
    rewrite (Z.compare_antisym e2 e1); destruct (e2 ?= e1)%Z; simpl;
    try reflexivity; f_equal.
  - f_equal. symmetry. exact (Pos.compare_cont_antisym m1 m2 Eq).
  - symmetry. exact (Pos.compare_cont_antisym m1 m2 Eq).
Qed.

Lemma ltb_asym (x y : float) : (x <? y) = true -> (y <? x) = false.
Proof.
  rewrite !ltb_spec. unfold SFltb. rewrite (SFcompare_antisym (Prim2SF x)).
  destruct (SFcompare (Prim2SF x) (Prim2SF y)) as [[]|]; simpl; congruence.
Qed.

Lemma leb_not_ltb (x y : float) : (x <=? y) = true -> (y <? x) = false.
Proof.
  rewrite ltb_spec, leb_spec. unfold SFltb, SFleb.
  rewrite (SFcompare_antisym (Prim2SF x)).
  destruct (SFcompare (Prim2SF x) (Prim2SF y)) as [[]|]; simpl; congruence.
Qed.

Lemma bounded_inside (lo hi v : float) :
  strictly_inside lo hi v -> bounded lo hi v = v.
Proof.
  intros [Hlo Hhi]. unfold bounded.
  rewrite (ltb_asym _ _ Hhi), (ltb_asym _ _ Hlo). reflexivity.
Qed.

(** ** The boundary check *)

Lemma bound_coord (coord : array3) :
  fst (bound_y (bound_x (coord, false))) =
  Array3 (bounded x_min x_max (at0 coord)) (bounded y_min y_max (at1 coord))
         (at2 coord).
Proof.
  destruct coord as [x y z]. unfold bound_x, bound_y, bounded.
  cbn [at0 at1 at2].
  destruct (x_max - 0.01 <? x); [|destruct (x <? x_min + 0.01)];
    cbn [at0 at1 at2 set_at0];
    (destruct (y_max - 0.01 <? y); [|destruct (y <? y_min + 0.01)]);
    reflexivity.
Qed.

Lemma bound_flag (coord : array3) :
  snd (bound_y (bound_x (coord, false))) =
  (x_max - 0.01 <? at0 coord) || (at0 coord <? x_min + 0.01)
  || (y_max - 0.01 <? at1 coord) || (at1 coord <? y_min + 0.01).
Proof.
  destruct coord as [x y z]. unfold bound_x, bound_y.
  cbn [at0 at1 at2].
  destruct (x_max - 0.01 <? x); [|destruct (x <? x_min + 0.01)];
    cbn [at0 at1 at2 set_at0];
    (destruct (y_max - 0.01 <? y); [|destruct (y <? y_min + 0.01)]);
    reflexivity.
Qed.

Lemma bound_unflagged (coord : array3) :
  snd (bound_y (bound_x (coord, false))) = false ->
  fst (bound_y (bound_x (coord, false))) = coord.
Proof.
  rewrite bound_flag, bound_coord. intros H.
  apply orb_false_elim in H as [H Hy2]. apply orb_false_elim in H as [H Hy1].
  apply orb_false_elim in H as [Hx1 Hx2].
  unfold bounded. rewrite Hx1, Hx2, Hy1, Hy2. destruct coord; reflexivity.
Qed.

Lemma bound_inside (coord : array3) :
  strictly_inside x_min x_max (at0 coord) ->
  strictly_inside y_min y_max (at1 coord) ->
  snd (bound_y (bound_x (coord, false))) = false.
Proof.
  intros [Hx1 Hx2] [Hy1 Hy2]. rewrite bound_flag.
  rewrite (ltb_asym _ _ Hx1), (ltb_asym _ _ Hx2),
          (ltb_asym _ _ Hy1), (ltb_asym _ _ Hy2).
  reflexivity.
Qed.

Lemma bound_position_run (st : Sim) (cell : Handle) (m : MyCell) :
  rm st !! cell = Some m ->
  bound_position cell st =
  Some (tt,
        let s := bound_y (bound_x (position_ (base m), false)) in
        if snd s
        then {| rm := <[cell := moved (fst s) m]> (rm st);
                calls := calls st ++ [CallSetPosition cell (fst s)] |}
        else st).
Proof.
  intros Hm. unfold bound_position, GetPosition, bind, deref, ret.
  rewrite Hm. cbv zeta.
  destruct (bound_y (bound_x (position_ (base m), false))) as [coord [|]];
    cbn [fst snd]; [|reflexivity].
  unfold SetPosition, update. rewrite Hm. reflexivity.
Qed.

(** ** The last slot of the store *)

Lemma snoc_lookup {A} (l : list A) (x : A) (n : nat) :
  n = length l -> (l ++ [x]) !! n = Some x.
Proof. intros ->. apply list_lookup_middle. reflexivity. Qed.

Lemma snoc_insert {A} (l : list A) (x y : A) (n : nat) :
  n = length l -> <[n := y]> (l ++ [x]) = l ++ [y].
Proof.
  intros ->. replace (length l) with (length l + 0)%nat by lia.
  rewrite insert_app_r. reflexivity.
Qed.

(** ** The three ways through lines 91-101 *)

Section BehaviourFacts.

Variable lib : CellModel.

Lemma divided_members (m : MyCell) :
  can_divide_ (fst (divided lib m)) = can_divide_ m /\
  cell_color_ (fst (divided lib m)) = cell_color_ m /\
  can_divide_ (snd (divided lib m)) = can_divide_ m /\
  cell_color_ (snd (divided lib m)) = cell_color_ m.
Proof.
  unfold divided, MyCellExt_division, EventHandler.
  destruct (Cell_division_ctor lib (base m)) as [db mb]. cbn [base with_base].
  destruct (Cell_EventHandler lib mb db) as [mb' db']. cbn. auto.
Qed.

Lemma grow_run (st : Sim) (cell : Handle) (m : MyCell) :
  rm st !! cell = Some m ->
  (diameter_ (base m) <? 8) = true ->
  growth_or_division lib cell st =
  Some (tt, {| rm := <[cell := grown lib 300 m]> (rm st);
               calls := calls st ++ [CallChangeVolume cell 300] |}).
Proof.
  intros Hm Hd.
  unfold growth_or_division, GetDiameter, bind, deref, ret.
  rewrite Hm, Hd. unfold ChangeVolume, update. rewrite Hm. reflexivity.
Qed.

Lemma rest_run (st : Sim) (cell : Handle) (m : MyCell) :
  rm st !! cell = Some m ->
  (diameter_ (base m) <? 8) = false ->
  can_divide_ m = false ->
  growth_or_division lib cell st = Some (tt, st).
Proof.
  intros Hm Hd Hc.
  unfold growth_or_division, GetDiameter, GetCanDivide, bind, deref, ret.
  rewrite Hm, Hd, Hm, Hc. reflexivity.
Qed.

Lemma divide_run (st : Sim) (cell : Handle) (m : MyCell) :
  rm st !! cell = Some m ->
  (diameter_ (base m) <? 8) = false ->
  can_divide_ m = true ->
  growth_or_division lib cell st =
  Some (tt, {| rm := <[cell := fst (divided lib m)]> (rm st)
                     ++ [daughter_of lib m];
               calls := calls st
                        ++ [CallDivide cell (length (rm st));
                            CallSetCellColor (length (rm st)) (cell_color_ m);
                            CallSetCanDivide (length (rm st)) true] |}).
Proof.
  intros Hm Hd Hc.
  assert (Hlt : (cell < length (rm st))%nat) by (eapply lookup_lt_Some; eauto).
  destruct (divided_members m) as (_ & Hcol & _ & _).
  unfold growth_or_division, GetDiameter, GetCanDivide, bind, deref, ret.
  rewrite Hm, Hd, Hm, Hc.
  unfold Divide. rewrite Hm. unfold daughter_of. fold (divided lib m) in *.
  destruct (divided lib m) as [m2 d2] eqn:Hdiv.
  unfold divided in Hdiv.
  destruct (MyCellExt_division lib m) as [d1 m1]. rewrite Hdiv.
  cbn [fst snd] in *.
  unfold GetCellColor, bind, deref, ret. cbn [rm calls].
  rewrite lookup_app_l by (rewrite length_insert; exact Hlt).
  rewrite list_lookup_insert_eq by exact Hlt.
  unfold SetCellColor, SetCanDivide, update. cbn [rm calls].
  assert (Hn : length (rm st) = length (<[cell := m2]> (rm st)))
    by (rewrite length_insert; reflexivity).
  rewrite (snoc_lookup (<[cell := m2]> (rm st)) d2 _ Hn). cbn [rm calls].
  rewrite (snoc_insert (<[cell := m2]> (rm st)) d2 _ _ Hn).
  rewrite (snoc_lookup (<[cell := m2]> (rm st)) _ _ Hn).
  rewrite (snoc_insert (<[cell := m2]> (rm st)) _ _ _ Hn).
  rewrite Hcol, <- !app_assoc. reflexivity.
Qed.

(** ** The two halves of [Run] *)

Lemma moved_same (m : MyCell) : moved (position_ (base m)) m = m.
Proof. destruct m as [[p d a ms bs] cd cc]. reflexivity. Qed.

Lemma Run_halves (st : Sim) (cell : Handle) :
  Run lib cell st =
  match growth_or_division lib cell st with
  | Some (_, st1) => bound_position cell st1
  | None => None
  end.
Proof. reflexivity. Qed.

(** Lines 91-101 return, leave the cell in the store with its two members,
    write no position and touch no other cell that was there. *)
Lemma growth_or_division_keeps (st : Sim) (cell : Handle) (m : MyCell) :
  rm st !! cell = Some m ->
  exists st1 m1 cs,
    growth_or_division lib cell st = Some (tt, st1) /\
    rm st1 !! cell = Some m1 /\
    can_divide_ m1 = can_divide_ m /\
    cell_color_ m1 = cell_color_ m /\
    calls st1 = calls st ++ cs /\
    forallb not_SetPosition cs = true /\
    (length (rm st) <= length (rm st1))%nat /\
    (forall h, h <> cell -> (h < length (rm st))%nat ->
               rm st1 !! h = rm st !! h).
Proof.
  intros Hm.
  assert (Hlt : (cell < length (rm st))%nat) by (eapply lookup_lt_Some; eauto).
  destruct (diameter_ (base m) <? 8) eqn:Hd;
    [|destruct (can_divide_ m) eqn:Hc].
  - eexists _, (grown lib 300 m), _.
    split; [apply (grow_run st cell m Hm Hd)|]. cbn [rm calls].
    rewrite list_lookup_insert_eq by exact Hlt. rewrite length_insert.
    repeat split; try reflexivity; try lia.
    intros h Hh _. apply list_lookup_insert_ne. congruence.
  - destruct (divided_members m) as (Hcd & Hcol & _ & _).
    eexists _, (fst (divided lib m)), _.
    split; [apply (divide_run st cell m Hm Hd Hc)|]. cbn [rm calls].
    rewrite lookup_app_l by (rewrite length_insert; exact Hlt).
    rewrite list_lookup_insert_eq by exact Hlt.
    rewrite length_app, length_insert.
    repeat split; try reflexivity; try lia; try congruence.
    intros h Hh Hl. rewrite lookup_app_l by (rewrite length_insert; exact Hl).
    apply list_lookup_insert_ne. congruence.
  - exists st, m, []. rewrite app_nil_r.
    split; [apply (rest_run st cell m Hm Hd Hc)|].
    repeat split; try reflexivity; try assumption; try lia.
Qed.

(** Lines 104-124 return and leave the cell at the bounded position; they
    touch nothing else, and nothing at all for a cell inside the margins. *)
Lemma bound_position_keeps (st1 : Sim) (cell : Handle) (m1 : MyCell) :
  rm st1 !! cell = Some m1 ->
  exists st2 cs,
    bound_position cell st1 = Some (tt, st2) /\
    rm st2 !! cell = Some (moved (bounded_coord (position_ (base m1))) m1) /\
    (forall h, h <> cell -> rm st2 !! h = rm st1 !! h) /\
    length (rm st2) = length (rm st1) /\
    calls st2 = calls st1 ++ cs /\
    forallb (is_SetPosition_of cell) cs = true /\
    (strictly_inside x_min x_max (at0 (position_ (base m1))) ->
     strictly_inside y_min y_max (at1 (position_ (base m1))) ->
     st2 = st1).
Proof.
  intros Hm.
  assert (Hlt : (cell < length (rm st1))%nat) by (eapply lookup_lt_Some; eauto).
  rewrite (bound_position_run st1 cell m1 Hm). cbv zeta.
  pose proof (bound_coord (position_ (base m1))) as Hco.
  pose proof (bound_unflagged (position_ (base m1))) as Hun.
  pose proof (bound_inside (position_ (base m1))) as Hin.
  fold (bounded_coord (position_ (base m1))) in Hco.
  destruct (bound_y (bound_x (position_ (base m1), false))) as [coord flag].
  cbn [fst snd] in *. subst coord. destruct flag.
  - eexists _, _. split; [reflexivity|]. cbn [rm calls].
    rewrite list_lookup_insert_eq by exact Hlt. rewrite length_insert.
    repeat split; try reflexivity.
    + intros h Hh. apply list_lookup_insert_ne. congruence.
    + cbn. rewrite Nat.eqb_refl. reflexivity.
    + intros Hx Hy. specialize (Hin Hx Hy). discriminate.
  - exists st1, []. rewrite app_nil_r, (Hun eq_refl), moved_same.
    repeat split; try reflexivity; assumption.
Qed.

Lemma SetPosition_not_Divide (cell : Handle) (cs : list Call) :
  forallb (is_SetPosition_of cell) cs = true -> List.filter is_Divide cs = [].
Proof.
  induction cs as [|c cs IH]; [reflexivity|]. cbn [forallb List.filter].
  intros H. apply andb_prop in H as [Hc Hcs].
  destruct c; try discriminate. cbn. apply IH, Hcs.
Qed.

Lemma moved_members (coord : array3) (m : MyCell) :
  can_divide_ (moved coord m) = can_divide_ m /\
  cell_color_ (moved coord m) = cell_color_ m /\
  position_ (base (moved coord m)) = coord.
Proof. repeat split. Qed.

(** ** The behaviour: growth, division, bounds *)

(** C1: one invocation of the behaviour bounds the position coordinate by
    coordinate, with the margin 0.01. With (x, y, z) the position the cell
    has when line 104 reads it (after the growth or division of lines
    91-101): x becomes x_max - 0.01 if x > x_max - 0.01, else x_max + 0.01 if
    x < x_min + 0.01, else it stays; y becomes y_max - 0.01 if
    y > y_max - 0.01, else x_max + 0.01 (the bound of x) if y < y_min + 0.01,
    else it stays. *)
Theorem Run_bounds_position (st : Sim) (cell : Handle) (m : MyCell) :
  rm st !! cell = Some m ->
  exists st1 m1 st2 m2,
    growth_or_division lib cell st = Some (tt, st1) /\
    rm st1 !! cell = Some m1 /\
    Run lib cell st = Some (tt, st2) /\
    rm st2 !! cell = Some m2 /\
    let x := at0 (position_ (base m1)) in
    let y := at1 (position_ (base m1)) in
    at0 (position_ (base m2)) =
      (if x_max - 0.01 <? x then x_max - 0.01
       else if x <? x_min + 0.01 then x_max + 0.01
       else x) /\
    at1 (position_ (base m2)) =
      (if y_max - 0.01 <? y then y_max - 0.01
       else if y <? y_min + 0.01 then x_max + 0.01
       else y).
Proof.
  intros Hm.
  destruct (growth_or_division_keeps st cell m Hm)
    as (st1 & m1 & cs1 & Hg & Hm1 & _).
  destruct (bound_position_keeps st1 cell m1 Hm1)
    as (st2 & cs2 & Hb & Hm2 & _).
  exists st1, m1, st2, (moved (bounded_coord (position_ (base m1))) m1).
  rewrite Run_halves, Hg.
  repeat split; assumption || reflexivity.
Qed.

(** C2: for a cell with diameter >= 8 that can divide, one invocation makes
    exactly one daughter (one [Divide], one cell more in the store), and the
    daughter can divide and has the category the mother had at the call. *)
Theorem Run_divides (st : Sim) (cell : Handle) (m : MyCell) :
  rm st !! cell = Some m ->
  (8 <=? diameter_ (base m)) = true ->
  can_divide_ m = true ->
  exists st2 daughter cs,
    Run lib cell st = Some (tt, st2) /\
    length (rm st2) = S (length (rm st)) /\
    rm st2 !! length (rm st) = Some daughter /\
    can_divide_ daughter = true /\
    cell_color_ daughter = cell_color_ m /\
    calls st2 = calls st ++ cs /\
    List.filter is_Divide cs = [CallDivide cell (length (rm st))].
Proof.
  intros Hm Hd Hc. apply leb_not_ltb in Hd.
  assert (Hlt : (cell < length (rm st))%nat) by (eapply lookup_lt_Some; eauto).
  pose proof (divide_run st cell m Hm Hd Hc) as Hg.
  set (st1 := {| rm := <[cell := fst (divided lib m)]> (rm st)
                       ++ [daughter_of lib m];
                 calls := calls st
                   ++ [CallDivide cell (length (rm st));
                       CallSetCellColor (length (rm st)) (cell_color_ m);
                       CallSetCanDivide (length (rm st)) true] |}) in *.
  assert (Hm1 : rm st1 !! cell = Some (fst (divided lib m))).
  { cbn [st1 rm]. rewrite lookup_app_l by (rewrite length_insert; exact Hlt).
    apply list_lookup_insert_eq, Hlt. }
  destruct (bound_position_keeps st1 cell _ Hm1)
    as (st2 & cs2 & Hb & _ & Hother & Hlen & Hcalls & Hcs2 & _).
  exists st2, (daughter_of lib m),
    ([CallDivide cell (length (rm st));
      CallSetCellColor (length (rm st)) (cell_color_ m);
      CallSetCanDivide (length (rm st)) true] ++ cs2).
  rewrite Run_halves, Hg, Hb, Hlen, Hcalls, Hother by lia.
  cbn [st1 rm calls]. rewrite length_app, length_insert.
  repeat split; try reflexivity.
  - cbn; lia.
  - apply snoc_lookup. rewrite length_insert. reflexivity.
  - rewrite app_assoc. reflexivity.
  - rewrite List.filter_app, (SetPosition_not_Divide cell cs2 Hcs2).
    reflexivity.
Qed.

(** C3: for a cell with diameter < 8, one invocation issues one request to
    change the volume, of exactly 300, and no division: the only calls that
    may follow are position writes of the boundary check, and the store has
    as many cells as before. *)
Theorem Run_grows (st : Sim) (cell : Handle) (m : MyCell) :
  rm st !! cell = Some m ->
  (diameter_ (base m) <? 8) = true ->
  exists st2 cs,
    Run lib cell st = Some (tt, st2) /\
    calls st2 = calls st ++ CallChangeVolume cell 300 :: cs /\
    forallb (is_SetPosition_of cell) cs = true /\
    List.filter is_Divide (CallChangeVolume cell 300 :: cs) = [] /\
    length (rm st2) = length (rm st).
Proof.
  intros Hm Hd.
  assert (Hlt : (cell < length (rm st))%nat) by (eapply lookup_lt_Some; eauto).
  pose proof (grow_run st cell m Hm Hd) as Hg.
  set (st1 := {| rm := <[cell := grown lib 300 m]> (rm st);
                 calls := calls st ++ [CallChangeVolume cell 300] |}) in *.
  assert (Hm1 : rm st1 !! cell = Some (grown lib 300 m))
    by (apply list_lookup_insert_eq, Hlt).
  destruct (bound_position_keeps st1 cell _ Hm1)
    as (st2 & cs2 & Hb & _ & _ & Hlen & Hcalls & Hcs2 & _).
  exists st2, cs2. rewrite Run_halves, Hg, Hb, Hlen, Hcalls.
  cbn [st1 rm calls]. rewrite length_insert, <- app_assoc.
  repeat split; try reflexivity; try assumption.
  cbn. apply (SetPosition_not_Divide cell cs2 Hcs2).
Qed.

(** C4: for a cell with diameter >= 8 that cannot divide, one invocation
    makes no daughter (no [Divide], the store has as many cells as before),
    and the cell's [can_divide_] and [cell_color_] are as they were. *)
Theorem Run_does_not_divide (st : Sim) (cell : Handle) (m : MyCell) :
  rm st !! cell = Some m ->
  (8 <=? diameter_ (base m)) = true ->
  can_divide_ m = false ->
  exists st2 m2 cs,
    Run lib cell st = Some (tt, st2) /\
    length (rm st2) = length (rm st) /\
    rm st2 !! cell = Some m2 /\
    can_divide_ m2 = can_divide_ m /\
    cell_color_ m2 = cell_color_ m /\
    calls st2 = calls st ++ cs /\
    List.filter is_Divide cs = [].
Proof.
  intros Hm Hd Hc. apply leb_not_ltb in Hd.
  pose proof (rest_run st cell m Hm Hd Hc) as Hg.
  destruct (bound_position_keeps st cell m Hm)
    as (st2 & cs2 & Hb & Hm2 & _ & Hlen & Hcalls & Hcs2 & _).
  exists st2, (moved (bounded_coord (position_ (base m))) m), cs2.
  rewrite Run_halves, Hg, Hb.
  repeat split; try assumption.
  apply (SetPosition_not_Divide cell cs2 Hcs2).
Qed.

(** C5: one invocation never changes the z coordinate, whatever its value:
    the cell ends with the z that line 104 read. And for a cell whose x and y
    are strictly inside (x_min + 0.01, x_max - 0.01) and
    (y_min + 0.01, y_max - 0.01), lines 104-124 write nothing at all: the
    simulation after the invocation is the one the growth or division left. *)
Theorem Run_keeps_z (st : Sim) (cell : Handle) (m : MyCell) :
  rm st !! cell = Some m ->
  exists st1 m1 st2 m2,
    growth_or_division lib cell st = Some (tt, st1) /\
    rm st1 !! cell = Some m1 /\
    Run lib cell st = Some (tt, st2) /\
    rm st2 !! cell = Some m2 /\
    at2 (position_ (base m2)) = at2 (position_ (base m1)) /\
    (strictly_inside x_min x_max (at0 (position_ (base m1))) ->
     strictly_inside y_min y_max (at1 (position_ (base m1))) ->
     st2 = st1).
Proof.
  intros Hm.
  destruct (growth_or_division_keeps st cell m Hm)
    as (st1 & m1 & cs1 & Hg & Hm1 & _).
  destruct (bound_position_keeps st1 cell m1 Hm1)
    as (st2 & cs2 & Hb & Hm2 & _ & _ & _ & _ & Hin).
  exists st1, m1, st2, (moved (bounded_coord (position_ (base m1))) m1).
  rewrite Run_halves, Hg.
  repeat split; assumption || reflexivity.
Qed.

(** C6: within one invocation the growth or division comes first and the
    boundary check second: the check runs on the simulation that lines
    91-101 left, whichever branch they took; the calls of the first part are
    no position writes and those of the second are position writes of the
    invoked cell only. The invoked cell ends at the bounded position, and a
    cell made by this invocation (any handle past the old end of the store)
    is as the division left it. *)
Theorem Run_order (st : Sim) (cell : Handle) (m : MyCell) :
  rm st !! cell = Some m ->
  exists st1 m1 st2 cs1 cs2,
    growth_or_division lib cell st = Some (tt, st1) /\
    rm st1 !! cell = Some m1 /\
    bound_position cell st1 = Some (tt, st2) /\
    Run lib cell st = Some (tt, st2) /\
    calls st1 = calls st ++ cs1 /\
    forallb not_SetPosition cs1 = true /\
    calls st2 = calls st1 ++ cs2 /\
    forallb (is_SetPosition_of cell) cs2 = true /\
    rm st2 !! cell = Some (moved (bounded_coord (position_ (base m1))) m1) /\
    (forall d, (length (rm st) <= d)%nat -> rm st2 !! d = rm st1 !! d).
Proof.
  intros Hm.
  assert (Hlt : (cell < length (rm st))%nat) by (eapply lookup_lt_Some; eauto).
  destruct (growth_or_division_keeps st cell m Hm)
    as (st1 & m1 & cs1 & Hg & Hm1 & _ & _ & Hc1 & Hcs1 & _).
  destruct (bound_position_keeps st1 cell m1 Hm1)
    as (st2 & cs2 & Hb & Hm2 & Hother & _ & Hc2 & Hcs2 & _).
  exists st1, m1, st2, cs1, cs2.
  rewrite Run_halves, Hg.
  repeat split; try assumption.
  intros d Hd. apply Hother. lia.
Qed.

(** C8: on a cell of the store an invocation always returns a simulation:
    there is no way for it to fail. It only adds to the record of calls on
    simulation objects, and leaves every other cell that was in the store as
    it was. *)
Theorem Run_total (st : Sim) (cell : Handle) (m : MyCell) :
  rm st !! cell = Some m ->
  exists st2 cs,
    Run lib cell st = Some (tt, st2) /\
    calls st2 = calls st ++ cs /\
    (forall h, h <> cell -> (h < length (rm st))%nat ->
               rm st2 !! h = rm st !! h).
Proof.
  intros Hm.
  destruct (growth_or_division_keeps st cell m Hm)
    as (st1 & m1 & cs1 & Hg & Hm1 & _ & _ & Hc1 & _ & _ & Hframe).
  destruct (bound_position_keeps st1 cell m1 Hm1)
    as (st2 & cs2 & Hb & _ & Hother & _ & Hc2 & _).
  exists st2, (cs1 ++ cs2). rewrite Run_halves, Hg, Hb, Hc2, Hc1, app_assoc.
  repeat split. intros h Hh Hl. rewrite (Hother h Hh). apply Hframe; assumption.
Qed.

(** ** The category is only copied *)

Lemma erase_members (m m' : MyCell) :
  MyCell_SetCellColor 0 m = MyCell_SetCellColor 0 m' <->
  base m = base m' /\ can_divide_ m = can_divide_ m'.
Proof.
  destruct m, m'. unfold MyCell_SetCellColor. cbn. split.
  - intros H. injection H. auto.
  - intros [-> ->]. reflexivity.
Qed.

Lemma erase_lookup (st st' : Sim) (cell : Handle) (m : MyCell) :
  erase_color st = erase_color st' ->
  rm st !! cell = Some m ->
  exists m', rm st' !! cell = Some m' /\
             base m = base m' /\ can_divide_ m = can_divide_ m'.
Proof.
  intros He Hm. apply (f_equal rm) in He. cbn [erase_color rm] in He.
  apply (f_equal (fun l => l !! cell)) in He.
  rewrite !list_lookup_fmap, Hm in He.
  destruct (rm st' !! cell) as [m'|]; [|discriminate].
  exists m'. split; [reflexivity|].
  injection He as He Hc. split; assumption.
Qed.

Lemma erase_update (st st' : Sim) (cell : Handle) (m m' : MyCell) (c c' : Call) :
  erase_color st = erase_color st' ->
  MyCell_SetCellColor 0 m = MyCell_SetCellColor 0 m' ->
  erase_call c = erase_call c' ->
  erase_color {| rm := <[cell := m]> (rm st); calls := calls st ++ [c] |} =
  erase_color {| rm := <[cell := m']> (rm st'); calls := calls st' ++ [c'] |}.
Proof.
  intros He Hm Hc. unfold erase_color in *. cbn [rm calls] in *.
  injection He as Hrm Hcalls.
  rewrite !list_fmap_insert, !fmap_app, Hrm, Hcalls, Hm. cbn.
  rewrite Hc. reflexivity.
Qed.

Lemma divided_erase (m m' : MyCell) :
  base m = base m' ->
  can_divide_ m = can_divide_ m' ->
  MyCell_SetCellColor 0 (fst (divided lib m)) =
  MyCell_SetCellColor 0 (fst (divided lib m')) /\
  MyCell_SetCellColor 0 (daughter_of lib m) =
  MyCell_SetCellColor 0 (daughter_of lib m').
Proof.
  intros Hb Hc.
  unfold daughter_of, divided, MyCellExt_division, EventHandler.
  rewrite <- Hb. destruct (Cell_division_ctor lib (base m)) as [db mb].
  cbn [base with_base].
  destruct (Cell_EventHandler lib mb db) as [mb' db']. cbn.
  unfold MyCell_SetCellColor, with_base. cbn. rewrite Hc. split; reflexivity.
Qed.

Lemma growth_or_division_erase (st st' : Sim) (cell : Handle) (m : MyCell) :
  erase_color st = erase_color st' ->
  rm st !! cell = Some m ->
  exists st1 st1',
    growth_or_division lib cell st = Some (tt, st1) /\
    growth_or_division lib cell st' = Some (tt, st1') /\
    erase_color st1 = erase_color st1'.
Proof.
  intros He Hm.
  destruct (erase_lookup st st' cell m He Hm) as (m' & Hm' & Hb & Hc).
  destruct (divided_erase m m' Hb Hc) as [Hmo Hda].
  destruct (diameter_ (base m) <? 8) eqn:Hd;
    [|destruct (can_divide_ m) eqn:Hcd].
  - eexists _, _.
    split; [apply (grow_run st cell m Hm Hd)|].
    split; [apply (grow_run st' cell m' Hm'); congruence|].
    apply erase_update; [exact He| |reflexivity].
    apply erase_members. unfold grown. cbn. rewrite Hb. auto.
  - eexists _, _.
    split; [apply (divide_run st cell m Hm Hd Hcd)|].
    split; [apply (divide_run st' cell m' Hm'); congruence|].
    unfold erase_color in *. cbn [rm calls] in *.
    injection He as Hrm Hcalls.
    assert (Hlen : length (rm st) = length (rm st')).
    { rewrite <- (length_fmap (MyCell_SetCellColor 0) (rm st)), Hrm.
      apply length_fmap. }
    rewrite !fmap_app, !list_fmap_insert, Hrm, Hcalls, Hmo, Hlen. cbn.
    rewrite Hda. reflexivity.
  - exists st, st'.
    split; [apply (rest_run st cell m Hm Hd Hcd)|].
    split; [apply (rest_run st' cell m' Hm'); congruence|].
    exact He.
Qed.

Lemma bound_position_erase (st st' : Sim) (cell : Handle) (m : MyCell) :
  erase_color st = erase_color st' ->
  rm st !! cell = Some m ->
  exists st2 st2',
    bound_position cell st = Some (tt, st2) /\
    bound_position cell st' = Some (tt, st2') /\
    erase_color st2 = erase_color st2'.
Proof.
  intros He Hm.
  destruct (erase_lookup st st' cell m He Hm) as (m' & Hm' & Hb & Hc).
  rewrite (bound_position_run st cell m Hm).
  rewrite (bound_position_run st' cell m' Hm'). cbv zeta. rewrite <- Hb.
  destruct (bound_y (bound_x (position_ (base m), false))) as [coord flag].
  cbn [fst snd]. eexists _, _. split; [reflexivity|]. split; [reflexivity|].
  destruct flag; [|exact He].
  apply erase_update; [exact He| |reflexivity].
  apply erase_members. unfold moved. cbn. rewrite Hb. auto.
Qed.

Lemma growth_or_division_colors (st st1 : Sim) (cell : Handle) (m : MyCell) :
  rm st !! cell = Some m ->
  growth_or_division lib cell st = Some (tt, st1) ->
  colors_from m st st1.
Proof.
  intros Hm Hg h c Hh.
  assert (Hlt : (cell < length (rm st))%nat) by (eapply lookup_lt_Some; eauto).
  destruct (divided_members m) as (_ & Hcol & _ & _).
  destruct (diameter_ (base m) <? 8) eqn:Hd;
    [|destruct (can_divide_ m) eqn:Hc].
  - rewrite (grow_run st cell m Hm Hd) in Hg. injection Hg as <-.
    cbn [rm] in Hh. destruct (decide (h = cell)) as [->|Hne].
    + rewrite list_lookup_insert_eq in Hh by exact Hlt.
      injection Hh as <-. rewrite Hm. reflexivity.
    + rewrite list_lookup_insert_ne in Hh by congruence.
      rewrite Hh. reflexivity.
  - rewrite (divide_run st cell m Hm Hd Hc) in Hg. injection Hg as <-.
    cbn [rm] in Hh.
    destruct (decide (h < length (rm st))%nat) as [Hl|Hl].
    + rewrite lookup_app_l in Hh by (rewrite length_insert; exact Hl).
      destruct (decide (h = cell)) as [->|Hne].
      * rewrite list_lookup_insert_eq in Hh by exact Hlt.
        injection Hh as <-. rewrite Hm. exact Hcol.
      * rewrite list_lookup_insert_ne in Hh by congruence.
        rewrite Hh. reflexivity.
    + rewrite (proj2 (lookup_ge_None (rm st) h)) by lia.
      rewrite lookup_app_r in Hh by (rewrite length_insert; lia).
      rewrite length_insert in Hh.
      destruct (h - length (rm st))%nat as [|k]; [|destruct k; discriminate].
      injection Hh as <-. reflexivity.
  - rewrite (rest_run st cell m Hm Hd Hc) in Hg. injection Hg as <-.
    rewrite Hh. reflexivity.
Qed.

Lemma bound_position_colors (st1 st2 : Sim) (cell : Handle) (m1 : MyCell) :
  rm st1 !! cell = Some m1 ->
  bound_position cell st1 = Some (tt, st2) ->
  forall h c, rm st2 !! h = Some c ->
              exists c1, rm st1 !! h = Some c1 /\ cell_color_ c = cell_color_ c1.
Proof.
  intros Hm1 Hb h c Hh.
  destruct (bound_position_keeps st1 cell m1 Hm1)
    as (st2' & cs2 & Hb' & Hm2 & Hother & _).
  rewrite Hb in Hb'. injection Hb' as <-.
  destruct (decide (h = cell)) as [->|Hne].
  - rewrite Hm2 in Hh. injection Hh as <-. exists m1. split; [exact Hm1|].
    reflexivity.
  - rewrite (Hother h Hne) in Hh. exists c. split; [exact Hh|reflexivity].
Qed.

Lemma Run_colors (st st2 : Sim) (cell : Handle) (m : MyCell) :
  rm st !! cell = Some m ->
  Run lib cell st = Some (tt, st2) ->
  colors_from m st st2.
Proof.
  intros Hm Hr.
  destruct (growth_or_division_keeps st cell m Hm)
    as (st1 & m1 & cs1 & Hg & Hm1 & _).
  rewrite Run_halves, Hg in Hr.
  intros h c Hh.
  destruct (bound_position_colors st1 st2 cell m1 Hm1 Hr h c Hh)
    as (c1 & Hc1 & ->).
  apply (growth_or_division_colors st st1 cell m Hm Hg h c1 Hc1).
Qed.

(** C7: the category never decides what the behaviour does. Take two
    simulations that are the same but for the categories of their cells (and
    of the categories in the calls recorded so far), and invoke the
    behaviour on the same cell of each: both invocations return, and the two
    results are again the same but for the categories. The categories
    themselves are only carried along: in each result a cell that was in the
    store keeps the category it had, and a daughter has the category of her
    own mother. *)
Theorem Run_color_blind (st st' : Sim) (cell : Handle) (m : MyCell) :
  erase_color st = erase_color st' ->
  rm st !! cell = Some m ->
  exists m' st2 st2',
    rm st' !! cell = Some m' /\
    Run lib cell st = Some (tt, st2) /\
    Run lib cell st' = Some (tt, st2') /\
    erase_color st2 = erase_color st2' /\
    colors_from m st st2 /\
    colors_from m' st' st2'.
Proof.
  intros He Hm.
  destruct (erase_lookup st st' cell m He Hm) as (m' & Hm' & _).
  destruct (growth_or_division_erase st st' cell m He Hm)
    as (st1 & st1' & Hg & Hg' & He1).
  destruct (growth_or_division_keeps st cell m Hm)
    as (st1x & m1 & cs1 & Hgx & Hm1 & _).
  rewrite Hg in Hgx. injection Hgx as <-.
  destruct (bound_position_erase st1 st1' cell m1 He1 Hm1)
    as (st2 & st2' & Hb & Hb' & He2).
  assert (Hr : Run lib cell st = Some (tt, st2))
    by (rewrite Run_halves, Hg; exact Hb).
  assert (Hr' : Run lib cell st' = Some (tt, st2'))
    by (rewrite Run_halves, Hg'; exact Hb').
  exists m', st2, st2'. repeat split; try assumption.
  - apply (Run_colors st st2 cell m Hm Hr).
  - apply (Run_colors st' st2' cell m' Hm' Hr').
Qed.

End BehaviourFacts.

(** ** The set-up *)

Section SetupFacts.

Variable Rand : Type.
Variable Uniform : float -> float -> Rand -> float * Rand.
Variable cell_init : Cell.
Variable Scheduler_Simulate : Z -> Simulation Rand -> Simulation Rand.

Lemma create_cell_eq (rng : Rand) :
  create_cell Uniform cell_init rng =
  ({| base := initial_cell Uniform cell_init rng;
      can_divide_ := true;
      cell_color_ := 0 |},
   snd (draw_xy Uniform rng)).
Proof.
  unfold create_cell, initial_cell, draw_xy.
  destruct (Uniform x_min x_max rng) as [x r1].
  destruct (Uniform y_min y_max r1) as [y r2]. reflexivity.
Qed.

Lemma generator_at_S (i : nat) (rng : Rand) :
  generator_at Uniform (S i) rng =
  generator_at Uniform i (snd (draw_xy Uniform rng)).
Proof.
  unfold generator_at. induction i as [|i IH]; [reflexivity|].
  cbn [Nat.iter nat_rect] in *. rewrite IH. reflexivity.
Qed.

Lemma create_cells_eq (n : nat) (s : Simulation Rand) :
  create_cells Uniform cell_init n s =
  {| param := param s;
     cells := cells s ++
              ((fun i => {| base := initial_cell Uniform cell_init
                                      (generator_at Uniform i (random s));
                            can_divide_ := true;
                            cell_color_ := 0 |}) <$> seq 0 n);
     random := generator_at Uniform n (random s) |}.
Proof.
  revert s. induction n as [|n IH]; intros s.
  - destruct s. cbn. rewrite app_nil_r. reflexivity.
  - cbn [create_cells]. rewrite create_cell_eq, IH. cbn [param cells random].
    rewrite <- generator_at_S. f_equal.
    rewrite <- app_assoc. f_equal. cbn [seq fmap list_fmap app].
    f_equal. rewrite <- fmap_S_seq, <- list_fmap_compose.
    apply list_fmap_ext. intros i j _. unfold compose.
    rewrite generator_at_S. reflexivity.
Qed.

(** C9: the set-up makes exactly 10 cells, each of diameter 6, with x drawn
    from the generator between x_min = -75 and x_max = 75 and y between
    y_min = -75 and y_max = 75 (z is z_pos_init), each with the growth module
    added; then it hands the simulation to the scheduler for exactly 600
    steps. *)
Theorem Simulate_initial_cells (default_param : Param) (seed : Rand) :
  let s := Simulate_setup Uniform cell_init default_param seed in
  length (cells s) = 10%nat /\
  base <$> cells s =
    (fun i => initial_cell Uniform cell_init (generator_at Uniform i seed))
      <$> seq 0 10 /\
  Forall (fun c => diameter_ (base c) = 6 /\
                   In GrowthModule (biology_modules_ (base c))) (cells s) /\
  (x_min, x_max, y_min, y_max) = (-75, 75, -75, 75) /\
  Simulate Uniform cell_init Scheduler_Simulate default_param seed =
    (Scheduler_Simulate 600 s, 0%Z).
Proof.
  cbv zeta. unfold Simulate, Simulate_setup, num_cells, simulation_steps.
  rewrite create_cells_eq. cbn [param cells random app].
  split; [rewrite length_fmap; reflexivity|].
  split; [rewrite <- list_fmap_compose; reflexivity|].
  split; [|split; reflexivity].
  apply Forall_fmap, Forall_forall. intros i _. cbn [compose base].
  unfold initial_cell.
  destruct (draw_xy Uniform (generator_at Uniform i seed)) as [[x y] r].
  cbn [diameter_ biology_modules_]. split; [reflexivity|].
  apply in_or_app. right. left. reflexivity.
Qed.

(** C10: a cell constructed from a position alone can divide and has
    category 0, and so have all 10 cells of the set-up. *)
Theorem MyCellExt_position_members (default_param : Param) (seed : Rand) :
  (forall init position,
      can_divide_ (MyCellExt_position init position) = true /\
      cell_color_ (MyCellExt_position init position) = 0%Z) /\
  length (cells (Simulate_setup Uniform cell_init default_param seed)) = 10%nat /\
  Forall (fun c => can_divide_ c = true /\ cell_color_ c = 0%Z)
         (cells (Simulate_setup Uniform cell_init default_param seed)).
Proof.
  split; [intros init position; split; reflexivity|].
  unfold Simulate_setup, num_cells.
  rewrite create_cells_eq. cbn [param cells random app].
  split; [rewrite length_fmap; reflexivity|].
  apply Forall_fmap, Forall_forall. intros i _. split; reflexivity.
Qed.

End SetupFacts.

(** ** The theorems at the sample data *)

(** Handle 0 is a small cell at x = 80, y = -80: it ends at
    x = x_max - 0.01 and y = x_max + 0.01. *)
Lemma Run_bounds_position_witness :
  rm sample_sim !! 0%nat = Some (sample_cell 80 (-80) 5000 6 true 0) /\
  exists st2 m2,
    Run sample_lib 0 sample_sim = Some (tt, st2) /\
    rm st2 !! 0%nat = Some m2 /\
    at0 (position_ (base m2)) = x_max - 0.01 /\
    at1 (position_ (base m2)) = x_max + 0.01.
Proof.
  split; [reflexivity|].
  destruct (Run_bounds_position sample_lib sample_sim 0
              (sample_cell 80 (-80) 5000 6 true 0) eq_refl)
    as (st1 & m1 & st2 & m2 & Hg & Hm1 & Hr & Hm2 & Hx & Hy).
  vm_compute in Hg. injection Hg as <-.
  vm_compute in Hm1. injection Hm1 as <-.
  exists st2, m2. split; [exact Hr|]. split; [exact Hm2|].
  split; [rewrite Hx|rewrite Hy]; reflexivity.
Defined.

(** Handle 1 has diameter 9 and can divide: the daughter is the fourth
    cell, can divide and has the category -5 of her mother. *)
Lemma Run_divides_witness :
  rm sample_sim !! 1%nat = Some (sample_cell 10 20 (-2250) 9 true (-5)) /\
  (8 <=? diameter_ (base (sample_cell 10 20 (-2250) 9 true (-5)))) = true /\
  can_divide_ (sample_cell 10 20 (-2250) 9 true (-5)) = true /\
  exists st2 daughter,
    Run sample_lib 1 sample_sim = Some (tt, st2) /\
    length (rm st2) = 4%nat /\
    rm st2 !! 3%nat = Some daughter /\
    can_divide_ daughter = true /\
    cell_color_ daughter = (-5)%Z.
Proof.
  split; [reflexivity|]. split; [reflexivity|]. split; [reflexivity|].
  destruct (Run_divides sample_lib sample_sim 1
              (sample_cell 10 20 (-2250) 9 true (-5))
              eq_refl eq_refl eq_refl)
    as (st2 & daughter & cs & Hr & Hlen & Hd & Hcd & Hcc & _).
  exists st2, daughter. repeat split; assumption.
Defined.

(** Handle 0 has diameter 6: one request for 300, no cell more. *)
Lemma Run_grows_witness :
  rm sample_sim !! 0%nat = Some (sample_cell 80 (-80) 5000 6 true 0) /\
  (diameter_ (base (sample_cell 80 (-80) 5000 6 true 0)) <? 8) = true /\
  exists st2 cs,
    Run sample_lib 0 sample_sim = Some (tt, st2) /\
    calls st2 = CallChangeVolume 0 300 :: cs /\
    length (rm st2) = 3%nat.
Proof.
  split; [reflexivity|]. split; [reflexivity|].
  destruct (Run_grows sample_lib sample_sim 0
              (sample_cell 80 (-80) 5000 6 true 0) eq_refl eq_refl)
    as (st2 & cs & Hr & Hc & _ & _ & Hlen).
  exists st2, cs. repeat split; assumption.
Defined.

(** Handle 2 has diameter 8 and cannot divide: no cell more, and the cell
    still cannot divide and has category 1. *)
Lemma Run_does_not_divide_witness :
  rm sample_sim !! 2%nat = Some (sample_cell (-80) 0 (-2250) 8 false 1) /\
  (8 <=? diameter_ (base (sample_cell (-80) 0 (-2250) 8 false 1))) = true /\
  can_divide_ (sample_cell (-80) 0 (-2250) 8 false 1) = false /\
  exists st2 m2,
    Run sample_lib 2 sample_sim = Some (tt, st2) /\
    length (rm st2) = 3%nat /\
    rm st2 !! 2%nat = Some m2 /\
    can_divide_ m2 = false /\
    cell_color_ m2 = 1%Z.
Proof.
  split; [reflexivity|]. split; [reflexivity|]. split; [reflexivity|].
  destruct (Run_does_not_divide sample_lib sample_sim 2
              (sample_cell (-80) 0 (-2250) 8 false 1)
              eq_refl eq_refl eq_refl)
    as (st2 & m2 & cs & Hr & Hlen & Hm2 & Hcd & Hcc & _).
  exists st2, m2. repeat split; assumption.
Defined.

(** Handle 0 has z = 5000, outside every range, and keeps it; handle 1 is
    inside the margins and the boundary check writes nothing. *)
Lemma Run_keeps_z_witness :
  rm sample_sim !! 0%nat = Some (sample_cell 80 (-80) 5000 6 true 0) /\
  rm sample_sim !! 1%nat = Some (sample_cell 10 20 (-2250) 9 true (-5)) /\
  (exists st2 m2,
      Run sample_lib 0 sample_sim = Some (tt, st2) /\
      rm st2 !! 0%nat = Some m2 /\
      at2 (position_ (base m2)) = 5000) /\
  (exists st1 st2,
      growth_or_division sample_lib 1 sample_sim = Some (tt, st1) /\
      Run sample_lib 1 sample_sim = Some (tt, st2) /\
      st2 = st1).
Proof.
  split; [reflexivity|]. split; [reflexivity|]. split.
  - destruct (Run_keeps_z sample_lib sample_sim 0
                (sample_cell 80 (-80) 5000 6 true 0) eq_refl)
      as (st1 & m1 & st2 & m2 & Hg & Hm1 & Hr & Hm2 & Hz & _).
    vm_compute in Hg. injection Hg as <-.
    vm_compute in Hm1. injection Hm1 as <-.
    exists st2, m2. repeat split; assumption.
  - destruct (Run_keeps_z sample_lib sample_sim 1
                (sample_cell 10 20 (-2250) 9 true (-5)) eq_refl)
      as (st1 & m1 & st2 & m2 & Hg & Hm1 & Hr & _ & _ & Hin).
    exists st1, st2. split; [exact Hg|]. split; [exact Hr|].
    vm_compute in Hg. injection Hg as <-.
    vm_compute in Hm1. injection Hm1 as <-.
    apply Hin; split; reflexivity.
Defined.

(** Handle 1 divides, and the sample division puts the daughter at x = 100,
    beyond the upper bound: after the invocation she is still there. *)
Lemma Run_order_witness :
  rm sample_sim !! 1%nat = Some (sample_cell 10 20 (-2250) 9 true (-5)) /\
  exists st2 daughter,
    Run sample_lib 1 sample_sim = Some (tt, st2) /\
    rm st2 !! 3%nat = Some daughter /\
    at0 (position_ (base daughter)) = 100.
Proof.
  split; [reflexivity|].
  destruct (Run_order sample_lib sample_sim 1
              (sample_cell 10 20 (-2250) 9 true (-5)) eq_refl)
    as (st1 & m1 & st2 & cs1 & cs2 & Hg & _ & _ & Hr & _ & _ & _ & _ & _ & Hd).
  specialize (Hd 3%nat (le_n 3)).
  vm_compute in Hg. injection Hg as <-.
  eexists st2, _. split; [exact Hr|]. split; [exact Hd|]. reflexivity.
Defined.

(** The sample simulation and its recoloured copy, invoked on handle 1. *)
Lemma Run_color_blind_witness :
  erase_color sample_sim = erase_color sample_sim_recolored /\
  rm sample_sim !! 1%nat = Some (sample_cell 10 20 (-2250) 9 true (-5)) /\
  exists m' st2 st2',
    rm sample_sim_recolored !! 1%nat = Some m' /\
    Run sample_lib 1 sample_sim = Some (tt, st2) /\
    Run sample_lib 1 sample_sim_recolored = Some (tt, st2') /\
    erase_color st2 = erase_color st2' /\
    colors_from (sample_cell 10 20 (-2250) 9 true (-5)) sample_sim st2 /\
    colors_from m' sample_sim_recolored st2'.
Proof.
  split; [reflexivity|]. split; [reflexivity|].
  apply (Run_color_blind sample_lib sample_sim sample_sim_recolored 1
           (sample_cell 10 20 (-2250) 9 true (-5)));
    reflexivity.
Defined.

(** Every handle of the sample simulation can be invoked. *)
Lemma Run_total_witness :
  rm sample_sim !! 2%nat = Some (sample_cell (-80) 0 (-2250) 8 false 1) /\
  exists st2 cs,
    Run sample_lib 2 sample_sim = Some (tt, st2) /\
    calls st2 = calls sample_sim ++ cs /\
    (forall h, h <> 2%nat -> (h < length (rm sample_sim))%nat ->
               rm st2 !! h = rm sample_sim !! h).
Proof.
  split; [reflexivity|].
  apply (Run_total sample_lib sample_sim 2
           (sample_cell (-80) 0 (-2250) 8 false 1)).
  reflexivity.
Defined.

(** The set-up with the sample generator: the first cell is at
    (-75, -74, -2250), the second at (-73, -72, -2250). *)
Example Simulate_setup_sample :
  take 2 (position_ <$> (base <$> cells
            (Simulate_setup sample_Uniform sample_cell_init
                            (MkParam false 0 0 false) 0%Z))) =
  [Array3 (-75) (-74) (-2250); Array3 (-73) (-72) (-2250)].
Proof. vm_compute. reflexivity. Qed.

(** ** The behaviour run on the sample simulation *)

(** A small cell at x = x_max + 5 and y = y_min - 5 grows and is put at
    x = x_max - 0.01, y = x_max + 0.01; its z = 5000 stays. *)
Example Run_sample_small :
  Run sample_lib 0 sample_sim =
  Some (tt,
        {| rm := [sample_cell (x_max - 0.01) (x_max + 0.01) 5000 7 true 0;
                  sample_cell 10 20 (-2250) 9 true (-5);
                  sample_cell (-80) 0 (-2250) 8 false 1];
           calls := [CallChangeVolume 0 300;
                     CallSetPosition 0
                       (Array3 (x_max - 0.01) (x_max + 0.01) 5000)] |}).
Proof. vm_compute. reflexivity. Qed.

(** A large cell inside the range divides; nothing writes a position, and
    the daughter stays at x = 100. *)
Example Run_sample_divides :
  Run sample_lib 1 sample_sim =
  Some (tt,
        {| rm := [sample_cell 80 (-80) 5000 6 true 0;
                  sample_cell 10 20 (-2250) 4.5 true (-5);
                  sample_cell (-80) 0 (-2250) 8 false 1;
                  sample_cell 100 0 0 4.5 true (-5)];
           calls := [CallDivide 1 3;
                     CallSetCellColor 3 (-5);
                     CallSetCanDivide 3 true] |}).
Proof. vm_compute. reflexivity. Qed.

(** A large cell that cannot divide, at x = x_min - 5, is only put at
    x = x_max + 0.01. *)
Example Run_sample_rests :
  Run sample_lib 2 sample_sim =
  Some (tt,
        {| rm := [sample_cell 80 (-80) 5000 6 true 0;
                  sample_cell 10 20 (-2250) 9 true (-5);
                  sample_cell (x_max + 0.01) 0 (-2250) 8 false 1];
           calls := [CallSetPosition 2 (Array3 (x_max + 0.01) 0 (-2250))] |}).
Proof. vm_compute. reflexivity. Qed.

(** A handle that names no cell. *)
Example Run_sample_dangling : Run sample_lib 7 sample_sim = None.
Proof. reflexivity. Qed.

(** ** More on binary64 comparisons *)

Lemma ltb_nan_l (v a : float) : is_nan v = true -> (v <? a) = false.
Proof.
  intros Hn. rewrite ltb_spec. unfold Prim2SF at 1. rewrite Hn. reflexivity.
Qed.

Lemma ltb_nan_r (v a : float) : is_nan v = true -> (a <? v) = false.
Proof.
  intros Hn. rewrite ltb_spec. unfold Prim2SF at 2. rewrite Hn.
  unfold SFltb. destruct (Prim2SF a); reflexivity.
Qed.

Lemma SFltb_trans (x y z : spec_float) :
  SFltb x y = true -> SFltb y z = true -> SFltb x z = true.
Proof.
  unfold SFltb.
  destruct x as [s1|s1| |s1 m1 e1], y as [s2|s2| |s2 m2 e2],
           z as [s3|s3| |s3 m3 e3]; cbn;
    try discriminate; try (destruct s1; discriminate);
    try (destruct s2; discriminate); try (destruct s3; discriminate);
    try (destruct s1, s2; discriminate); try (destruct s2, s3; discriminate);
    try (destruct s1, s3; (discriminate || reflexivity));
    try (destruct s1, s2, s3; (discriminate || reflexivity)).
  all: destruct s1, s2, s3; try discriminate; try reflexivity.
  all: change (PosDef.Pos.compare_cont Eq) with Pos.compare.
  all: destruct (Z.compare_spec e1 e2), (Z.compare_spec e2 e3),
         (Z.compare_spec e1 e3), (Pos.compare_spec m1 m2),
         (Pos.compare_spec m2 m3), (Pos.compare_spec m1 m3);
    cbn; intros; try reflexivity; try discriminate; lia.
Qed.

Lemma ltb_trans (x y z : float) :
  (x <? y) = true -> (y <? z) = true -> (x <? z) = true.
Proof. rewrite !ltb_spec. apply SFltb_trans. Qed.

(** Not above [a] and [a] below [b]: not above [b]. *)
Lemma not_above_mono (a b v : float) :
  (a <? v) = false -> (a <? b) = true -> (b <? v) = false.
Proof.
  intros Hv Hab. destruct (b <? v) eqn:Hb; [|reflexivity].
  rewrite (ltb_trans a b v Hab Hb) in Hv. discriminate.
Qed.

(** ** The boundary check, applied again *)

Lemma check_bounds_coord (coord : array3) :
  fst (check_bounds coord) = bounded_coord coord.
Proof. apply bound_coord. Qed.

Lemma check_bounds_flag (coord : array3) :
  snd (check_bounds coord) =
  (x_max - 0.01 <? at0 coord) || (at0 coord <? x_min + 0.01)
  || (y_max - 0.01 <? at1 coord) || (at1 coord <? y_min + 0.01).
Proof. apply bound_flag. Qed.

(** A coordinate that a test leaves as it is passed neither branch. *)
Lemma bounded_fixed (v : float) :
  bounded x_min x_max v = v ->
  (x_max - 0.01 <? v) = false /\ (v <? x_min + 0.01) = false.
Proof.
  unfold bounded.
  destruct (x_max - 0.01 <? v) eqn:Hu.
  { intros <-. vm_compute in Hu. discriminate. }
  destruct (v <? x_min + 0.01) eqn:Hl.
  { intros <-. vm_compute in Hl. discriminate. }
  auto.
Qed.

Lemma bounded_cases (v : float) :
  (x_max - 0.01 <? v) = true /\ bounded x_min x_max v = x_max - 0.01 \/
  (x_max - 0.01 <? v) = false /\ (v <? x_min + 0.01) = true /\
    bounded x_min x_max v = x_max + 0.01 \/
  (x_max - 0.01 <? v) = false /\ (v <? x_min + 0.01) = false /\
    bounded x_min x_max v = v.
Proof.
  unfold bounded.
  destruct (x_max - 0.01 <? v); [auto|].
  destruct (v <? x_min + 0.01); auto.
Qed.

(** X1: the boundary check asks for a position write exactly when it changed
    the position. *)
Theorem check_bounds_writes_iff_changed (coord : array3) :
  snd (check_bounds coord) = true <-> fst (check_bounds coord) <> coord.
Proof.
  split.
  - intros Hw Heq. rewrite check_bounds_coord in Heq.
    rewrite check_bounds_flag in Hw.
    destruct coord as [x y z]. unfold bounded_coord in Heq.
    cbn [at0 at1 at2] in *. injection Heq as Hx Hy.
    change (bounded y_min y_max y) with (bounded x_min x_max y) in Hy.
    destruct (bounded_fixed x Hx) as [Hx1 Hx2].
    destruct (bounded_fixed y Hy) as [Hy1 Hy2].
    change y_max with x_max in Hw. change y_min with x_min in Hw.
    rewrite Hx1, Hx2, Hy1, Hy2 in Hw. discriminate.
  - intros Hne. destruct (snd (check_bounds coord)) eqn:Hw; [reflexivity|].
    exfalso. apply Hne. apply bound_unflagged, Hw.
Qed.

(** The coordinate after one test, tested again. *)
Lemma bounded_again (v : float) :
  let w := bounded x_min x_max v in
  (x_max - 0.01 <? w) = negb (x_max - 0.01 <? v) && (v <? x_min + 0.01) /\
  (w <? x_min + 0.01) = false.
Proof.
  cbv zeta.
  destruct (bounded_cases v) as [(Hu & ->)|[(Hu & Hl & ->)|(Hu & Hl & ->)]];
    rewrite Hu; try rewrite Hl; split; try assumption; reflexivity.
Qed.

(** X2: a second boundary check right after the first writes again exactly
    when the first took a lower branch, for x or for y: the value
    x_max + 0.01 that those branches write is above the upper margin. *)
Theorem check_bounds_second_write (coord : array3) :
  snd (check_bounds (fst (check_bounds coord))) =
  (negb (x_max - 0.01 <? at0 coord) && (at0 coord <? x_min + 0.01))
  || (negb (y_max - 0.01 <? at1 coord) && (at1 coord <? y_min + 0.01)).
Proof.
  rewrite check_bounds_flag, check_bounds_coord. unfold bounded_coord.
  cbn [at0 at1].
  change y_max with x_max. change y_min with x_min.
  destruct (bounded_again (at0 coord)) as [-> ->].
  destruct (bounded_again (at1 coord)) as [-> ->].
  rewrite !orb_false_r. reflexivity.
Qed.

(** X3: the boundary check settles after two applications: a third one
    writes nothing and leaves the position as the second left it. *)
Theorem check_bounds_settles (coord : array3) :
  check_bounds (fst (check_bounds (fst (check_bounds coord)))) =
  (fst (check_bounds (fst (check_bounds coord))), false).
Proof.
  set (c2 := fst (check_bounds (fst (check_bounds coord)))).
  assert (Hw : snd (check_bounds c2) = false).
  { unfold c2. rewrite check_bounds_second_write, check_bounds_coord.
    unfold bounded_coord. cbn [at0 at1].
    change y_max with x_max. change y_min with x_min.
    destruct (bounded_again (at0 coord)) as [_ ->].
    destruct (bounded_again (at1 coord)) as [_ ->].
    rewrite !andb_false_r. reflexivity. }
  pose proof (bound_unflagged c2 Hw) as Hc. fold (check_bounds c2) in Hc.
  destruct (check_bounds c2) as [c3 f]. cbn [fst snd] in *. congruence.
Qed.

(** X4: whatever the position was, after the boundary check x and y are not
    below the lower margin and not above x_max + 0.01. *)
Theorem check_bounds_range (coord : array3) :
  let c := fst (check_bounds coord) in
  (at0 c <? x_min + 0.01) = false /\ (x_max + 0.01 <? at0 c) = false /\
  (at1 c <? y_min + 0.01) = false /\ (x_max + 0.01 <? at1 c) = false.
Proof.
  cbv zeta. rewrite check_bounds_coord. unfold bounded_coord. cbn [at0 at1].
  change y_max with x_max. change y_min with x_min.
  assert (H : forall v, (bounded x_min x_max v <? x_min + 0.01) = false /\
                        (x_max + 0.01 <? bounded x_min x_max v) = false).
  { intros v.
    destruct (bounded_cases v) as [(Hu & ->)|[(Hu & Hl & ->)|(Hu & Hl & ->)]];
      try (split; reflexivity).
    split; [exact Hl|]. apply (not_above_mono (x_max - 0.01)); [exact Hu|].
    reflexivity. }
  destruct (H (at0 coord)) as [? ?]. destruct (H (at1 coord)) as [? ?]. auto.
Qed.

(** X5: a position whose x and y are NaN fails all four tests: the
    boundary check changes nothing and asks for no write. *)
Theorem check_bounds_nan (coord : array3) :
  is_nan (at0 coord) = true ->
  is_nan (at1 coord) = true ->
  check_bounds coord = (coord, false).
Proof.
  intros Hx Hy.
  assert (Hw : snd (check_bounds coord) = false).
  { rewrite check_bounds_flag.
    rewrite (ltb_nan_r _ _ Hx), (ltb_nan_l _ _ Hx),
            (ltb_nan_r _ _ Hy), (ltb_nan_l _ _ Hy). reflexivity. }
  pose proof (bound_unflagged coord Hw) as Hc. fold (check_bounds coord) in Hc.
  destruct (check_bounds coord) as [c f]. cbn [fst snd] in *. congruence.
Qed.

Lemma check_bounds_nan_witness :
  is_nan (at0 sample_nan_coord) = true /\
  is_nan (at1 sample_nan_coord) = true /\
  check_bounds sample_nan_coord = (sample_nan_coord, false).
Proof.
  split; [reflexivity|]. split; [reflexivity|].
  apply (check_bounds_nan sample_nan_coord); reflexivity.
Defined.

(** X6: the test on x and the test on y can be done in either order. *)
Theorem bound_x_bound_y_commute (s : array3 * bool) :
  bound_y (bound_x s) = bound_x (bound_y s).
Proof.
  destruct s as [[x y z] f]. unfold bound_x, bound_y. cbn [at0 at1 at2].
  destruct (x_max - 0.01 <? x) eqn:Hx1;
    [|destruct (x <? x_min + 0.01) eqn:Hx2];
    cbn [at0 at1 at2 set_at0 set_at1];
    (destruct (y_max - 0.01 <? y) eqn:Hy1;
       [|destruct (y <? y_min + 0.01) eqn:Hy2]);
    cbn [at0 at1 at2 set_at0 set_at1];
    rewrite ?Hx1, ?Hx2, ?Hy1, ?Hy2; reflexivity.
Qed.

(** ** The setters and getters of [MyCell] *)

Lemma update_run (st : Sim) (h : Handle) (m : MyCell)
    (f : MyCell -> MyCell) (c : Call) :
  rm st !! h = Some m ->
  exists st',
    update h f c st = Some (tt, st') /\
    rm st' !! h = Some (f m) /\
    (forall h', h' <> h -> rm st' !! h' = rm st !! h') /\
    length (rm st') = length (rm st).
Proof.
  intros Hm.
  assert (Hlt : (h < length (rm st))%nat) by (eapply lookup_lt_Some; eauto).
  unfold update. rewrite Hm. eexists. split; [reflexivity|]. cbn [rm].
  split; [apply list_lookup_insert_eq, Hlt|].
  split; [|apply length_insert].
  intros h' Hne. apply list_lookup_insert_ne. congruence.
Qed.

(** X7: a category set through a handle is the category read back through
    it; the setter leaves [can_divide_] and the [Cell] part of that cell, and
    every other cell, as they were. *)
Theorem SetCellColor_GetCellColor (st : Sim) (h : Handle) (m : MyCell)
    (cell_color : Z) :
  rm st !! h = Some m ->
  exists st',
    SetCellColor h cell_color st = Some (tt, st') /\
    GetCellColor h st' = Some (cell_color, st') /\
    GetCanDivide h st' = Some (can_divide_ m, st') /\
    (base <$> rm st' !! h) = Some (base m) /\
    (forall h', h' <> h -> rm st' !! h' = rm st !! h').
Proof.
  intros Hm.
  destruct (update_run st h m (MyCell_SetCellColor cell_color)
              (CallSetCellColor h cell_color) Hm)
    as (st' & Hu & Hh & Hother & _).
  exists st'. split; [exact Hu|].
  unfold GetCellColor, GetCanDivide, bind, deref, ret. rewrite Hh.
  repeat split. exact Hother.
Qed.

(** X8: a divisibility flag set through a handle is the flag read back
    through it; the setter leaves [cell_color_] and the [Cell] part of that
    cell, and every other cell, as they were. *)
Theorem SetCanDivide_GetCanDivide (st : Sim) (h : Handle) (m : MyCell)
    (d : bool) :
  rm st !! h = Some m ->
  exists st',
    SetCanDivide h d st = Some (tt, st') /\
    GetCanDivide h st' = Some (d, st') /\
    GetCellColor h st' = Some (cell_color_ m, st') /\
    (base <$> rm st' !! h) = Some (base m) /\
    (forall h', h' <> h -> rm st' !! h' = rm st !! h').
Proof.
  intros Hm.
  destruct (update_run st h m (MyCell_SetCanDivide d)
              (CallSetCanDivide h d) Hm)
    as (st' & Hu & Hh & Hother & _).
  exists st'. split; [exact Hu|].
  unfold GetCellColor, GetCanDivide, bind, deref, ret. rewrite Hh.
  repeat split. exact Hother.
Qed.

Lemma SetCellColor_GetCellColor_witness :
  rm sample_sim !! 2%nat = Some (sample_cell (-80) 0 (-2250) 8 false 1) /\
  exists st',
    SetCellColor 2 (-5) sample_sim = Some (tt, st') /\
    GetCellColor 2 st' = Some ((-5)%Z, st') /\
    GetCanDivide 2 st' = Some (false, st').
Proof.
  split; [reflexivity|].
  destruct (SetCellColor_GetCellColor sample_sim 2
              (sample_cell (-80) 0 (-2250) 8 false 1) (-5) eq_refl)
    as (st' & Hs & Hc & Hd & _).
  exists st'. repeat split; assumption.
Defined.

Lemma SetCanDivide_GetCanDivide_witness :
  rm sample_sim !! 2%nat = Some (sample_cell (-80) 0 (-2250) 8 false 1) /\
  exists st',
    SetCanDivide 2 true sample_sim = Some (tt, st') /\
    GetCanDivide 2 st' = Some (true, st') /\
    GetCellColor 2 st' = Some (1%Z, st').
Proof.
  split; [reflexivity|].
  destruct (SetCanDivide_GetCanDivide sample_sim 2
              (sample_cell (-80) 0 (-2250) 8 false 1) true eq_refl)
    as (st' & Hs & Hd & Hc & _).
  exists st'. repeat split; assumption.
Defined.

(** ** More on the behaviour *)

Section MoreBehaviourFacts.

Variable lib : CellModel.

Lemma daughter_of_divided (m : MyCell) :
  can_divide_ m = true -> daughter_of lib m = snd (divided lib m).
Proof.
  intros Hc. destruct (divided_members lib m) as (_ & _ & Hcd & Hcol).
  unfold daughter_of. destruct (snd (divided lib m)) as [b cd cc].
  cbn in *. unfold MyCell_SetCanDivide, MyCell_SetCellColor. cbn.
  congruence.
Qed.

(** X9: in the dividing branch the two setters of lines 98-99 change
    nothing: the store after lines 91-101 is the store right after
    [Divide], whose daughter already has the mother's category and can
    divide. *)
Theorem setters_after_Divide_keep_store (st : Sim) (cell : Handle) (m : MyCell) :
  rm st !! cell = Some m ->
  (diameter_ (base m) <? 8) = false ->
  can_divide_ m = true ->
  exists daughter st1 st1',
    Divide lib cell st = Some (daughter, st1) /\
    growth_or_division lib cell st = Some (tt, st1') /\
    rm st1' = rm st1.
Proof.
  intros Hm Hd Hc.
  rewrite (divide_run lib st cell m Hm Hd Hc).
  rewrite (daughter_of_divided m Hc).
  unfold Divide. rewrite Hm. fold (divided lib m).
  unfold divided. destruct (MyCellExt_division lib m) as [d1 m1].
  destruct (EventHandler lib m1 d1) as [m2 d2].
  eexists _, _, _. split; [reflexivity|]. split; reflexivity.
Qed.



(** Lines 91-101 and [can_divide_]: a cell of the store keeps its flag, a
    new cell can divide. *)
Lemma growth_or_division_can_divide (st st1 : Sim) (cell : Handle) (m : MyCell) :
  rm st !! cell = Some m ->
  growth_or_division lib cell st = Some (tt, st1) ->
  forall h c, rm st1 !! h = Some c ->
              can_divide_ c = match rm st !! h with
                              | Some c0 => can_divide_ c0
                              | None => true
                              end.
Proof.
  intros Hm Hg h c Hh.
  assert (Hlt : (cell < length (rm st))%nat) by (eapply lookup_lt_Some; eauto).
  destruct (divided_members lib m) as (Hcd & _ & _ & _).
  destruct (diameter_ (base m) <? 8) eqn:Hd;
    [|destruct (can_divide_ m) eqn:Hc].
  - rewrite (grow_run lib st cell m Hm Hd) in Hg. injection Hg as <-.
    cbn [rm] in Hh. destruct (decide (h = cell)) as [->|Hne].
    + rewrite list_lookup_insert_eq in Hh by exact Hlt.
      injection Hh as <-. rewrite Hm. reflexivity.
    + rewrite list_lookup_insert_ne in Hh by congruence.
      rewrite Hh. reflexivity.
  - rewrite (divide_run lib st cell m Hm Hd Hc) in Hg. injection Hg as <-.
    cbn [rm] in Hh.
    destruct (decide (h < length (rm st))%nat) as [Hl|Hl].
    + rewrite lookup_app_l in Hh by (rewrite length_insert; exact Hl).
      destruct (decide (h = cell)) as [->|Hne].
      * rewrite list_lookup_insert_eq in Hh by exact Hlt.
        injection Hh as <-. rewrite Hm. congruence.
      * rewrite list_lookup_insert_ne in Hh by congruence.
        rewrite Hh. reflexivity.
    + rewrite (proj2 (lookup_ge_None (rm st) h)) by lia.
      rewrite lookup_app_r in Hh by (rewrite length_insert; lia).
      rewrite length_insert in Hh.
      destruct (h - length (rm st))%nat as [|k]; [|destruct k; discriminate].
      injection Hh as <-. reflexivity.
  - rewrite (rest_run lib st cell m Hm Hd Hc) in Hg. injection Hg as <-.
    rewrite Hh. reflexivity.
Qed.

Lemma Run_members (st st2 : Sim) (cell : Handle) (m : MyCell) :
  rm st !! cell = Some m ->
  Run lib cell st = Some (tt, st2) ->
  forall h c, rm st2 !! h = Some c ->
              can_divide_ c = match rm st !! h with
                              | Some c0 => can_divide_ c0
                              | None => true
                              end /\
              cell_color_ c = match rm st !! h with
                              | Some c0 => cell_color_ c0
                              | None => cell_color_ m
                              end.
Proof.
  intros Hm Hr h c Hh.
  split; [|apply (Run_colors lib st st2 cell m Hm Hr h c Hh)].
  destruct (growth_or_division_keeps lib st cell m Hm)
    as (st1 & m1 & cs1 & Hg & Hm1 & _).
  rewrite Run_halves, Hg in Hr.
  destruct (bound_position_keeps st1 cell m1 Hm1)
    as (st2' & cs2 & Hb' & Hm2 & Hother & _).
  rewrite Hr in Hb'. injection Hb' as <-.
  destruct (decide (h = cell)) as [->|Hne].
  - rewrite Hm2 in Hh. injection Hh as <-.
    apply (growth_or_division_can_divide st st1 cell m Hm Hg cell m1 Hm1).
  - rewrite (Hother h Hne) in Hh.
    apply (growth_or_division_can_divide st st1 cell m Hm Hg h c Hh).
Qed.

(** X11: an invocation never changes the divisibility flag of a cell that
    was in the store, and the cell it makes can divide. *)
Theorem Run_keeps_can_divide (st : Sim) (cell : Handle) (m : MyCell) :
  rm st !! cell = Some m ->
  exists st2,
    Run lib cell st = Some (tt, st2) /\
    forall h c, rm st2 !! h = Some c ->
                can_divide_ c = match rm st !! h with
                                | Some c0 => can_divide_ c0
                                | None => true
                                end.
Proof.
  intros Hm.
  destruct (growth_or_division_keeps lib st cell m Hm)
    as (st1 & m1 & cs1 & Hg & Hm1 & _).
  destruct (bound_position_keeps st1 cell m1 Hm1) as (st2 & cs2 & Hb & _).
  assert (Hr : Run lib cell st = Some (tt, st2))
    by (rewrite Run_halves, Hg; exact Hb).
  exists st2. split; [exact Hr|]. intros h c Hh.
  apply (Run_members st st2 cell m Hm Hr h c Hh).
Qed.

(** X12: a population in which every cell can divide and has the category
    [k] stays such a population under an invocation on any of its cells. *)
Theorem Run_keeps_population (st : Sim) (cell : Handle) (m : MyCell) (k : Z) :
  rm st !! cell = Some m ->
  Forall (fun c => can_divide_ c = true /\ cell_color_ c = k) (rm st) ->
  exists st2,
    Run lib cell st = Some (tt, st2) /\
    Forall (fun c => can_divide_ c = true /\ cell_color_ c = k) (rm st2).
Proof.
  intros Hm Hall.
  destruct (growth_or_division_keeps lib st cell m Hm)
    as (st1 & m1 & cs1 & Hg & Hm1 & _).
  destruct (bound_position_keeps st1 cell m1 Hm1) as (st2 & cs2 & Hb & _).
  assert (Hr : Run lib cell st = Some (tt, st2))
    by (rewrite Run_halves, Hg; exact Hb).
  exists st2. split; [exact Hr|].
  rewrite Forall_lookup in Hall |- *. intros h c Hh.
  destruct (Run_members st st2 cell m Hm Hr h c Hh) as [Hcd Hcc].
  destruct (rm st !! h) as [c0|] eqn:Hc0.
  - destruct (Hall h c0 Hc0) as [? ?]. split; congruence.
  - destruct (Hall cell m Hm) as [? ?]. split; congruence.
Qed.

(** X13: a cell that fails the test of line 91 and cannot divide is only
    moved: the invocation replaces it by the same cell at the bounded
    position, so its diameter and flag are as before and the next
    invocation takes the same branch. *)
Theorem Run_rest_only_moves (st : Sim) (cell : Handle) (m : MyCell) :
  rm st !! cell = Some m ->
  (diameter_ (base m) <? 8) = false ->
  can_divide_ m = false ->
  exists st2,
    Run lib cell st = Some (tt, st2) /\
    rm st2 = <[cell := moved (fst (check_bounds (position_ (base m)))) m]>
               (rm st) /\
    (snd (check_bounds (position_ (base m))) = false -> st2 = st).
Proof.
  intros Hm Hd Hc.
  rewrite Run_halves, (rest_run lib st cell m Hm Hd Hc).
  rewrite (bound_position_run st cell m Hm). cbv zeta.
  fold (check_bounds (position_ (base m))).
  pose proof (bound_unflagged (position_ (base m))) as Hun.
  fold (check_bounds (position_ (base m))) in Hun.
  destruct (check_bounds (position_ (base m))) as [coord flag].
  cbn [fst snd] in *. eexists. split; [reflexivity|]. destruct flag.
  - split; [reflexivity|discriminate].
  - split; [|reflexivity]. rewrite (Hun eq_refl), moved_same.
    symmetry. apply list_insert_id. exact Hm.
Qed.

End MoreBehaviourFacts.

(** ** More on the set-up *)

Section MoreSetupFacts.

Variable Rand : Type.
Variable Uniform : float -> float -> Rand -> float * Rand.
Variable cell_init : Cell.
Variable lib : CellModel.

(** X14: the loop of lines 159-173 keeps the cells that were in the store
    where they were, adds exactly [n] cells behind them, draws twice per
    cell and leaves the parameters alone. *)
Theorem create_cells_keeps (n : nat) (s : Simulation Rand) :
  take (length (cells s)) (cells (create_cells Uniform cell_init n s))
    = cells s /\
  length (cells (create_cells Uniform cell_init n s))
    = (length (cells s) + n)%nat /\
  random (create_cells Uniform cell_init n s)
    = generator_at Uniform n (random s) /\
  param (create_cells Uniform cell_init n s) = param s.
Proof.
  rewrite create_cells_eq. cbn [param cells random].
  split; [apply take_app_length|].
  split; [|split; reflexivity].
  rewrite length_app, length_fmap, length_seq. reflexivity.
Qed.

(** X15: the simulation handed to the scheduler has a bounded space from
    -2250 to 2250 with mechanical interactions, whatever the defaults were,
    and every initial cell lies on the lower bound: its z is [min_bound_]. *)
Theorem Simulate_setup_space (default_param : Param) (seed : Rand) :
  let s := Simulate_setup Uniform cell_init default_param seed in
  param s = {| bound_space_ := true; min_bound_ := -2250;
               max_bound_ := 2250; run_mechanical_interactions_ := true |} /\
  Forall (fun c => at2 (position_ (base c)) = min_bound_ (param s)) (cells s).
Proof.
  cbv zeta. unfold Simulate_setup. rewrite create_cells_eq.
  cbn [param cells random app]. split; [reflexivity|].
  apply Forall_fmap, Forall_forall. intros i _. cbn [compose base].
  unfold initial_cell.
  destruct (draw_xy Uniform (generator_at Uniform i seed)) as [[x y] r].
  reflexivity.
Qed.

(** X16: the first invocation on any of the initial cells grows it: the
    diameter 6 passes the test of line 91, so the call is the request for
    300, no cell divides, and the store still has [num_cells] cells. *)
Theorem first_Run_grows (default_param : Param) (seed : Rand) (i : nat) :
  (i < num_cells)%nat ->
  exists st2 cs,
    Run lib i (handed_over
                 (Simulate_setup Uniform cell_init default_param seed))
      = Some (tt, st2) /\
    calls st2 = CallChangeVolume i 300 :: cs /\
    forallb (is_SetPosition_of i) cs = true /\
    length (rm st2) = num_cells.
Proof.
  intros Hi. unfold Simulate_setup. rewrite create_cells_eq.
  cbn [param cells random app]. unfold handed_over. cbn [cells].
  set (f := fun i : nat =>
              {| base := initial_cell Uniform cell_init
                           (generator_at Uniform i seed);
                 can_divide_ := true; cell_color_ := 0 |}).
  set (st := {| rm := f <$> seq 0 num_cells; calls := [] |}).
  assert (Hm : rm st !! i = Some (f i)).
  { cbn [st rm]. rewrite list_lookup_fmap, lookup_seq_lt by exact Hi.
    reflexivity. }
  assert (Hd : (diameter_ (base (f i)) <? 8) = true).
  { unfold f, initial_cell. cbn [base].
    destruct (draw_xy Uniform (generator_at Uniform i seed)) as [[x y] r].
    reflexivity. }
  assert (Hlt : (i < length (rm st))%nat) by (eapply lookup_lt_Some; eauto).
  pose proof (grow_run lib st i (f i) Hm Hd) as Hg.
  set (st1 := {| rm := <[i := grown lib 300 (f i)]> (rm st);
                 calls := calls st ++ [CallChangeVolume i 300] |}) in *.
  assert (Hm1 : rm st1 !! i = Some (grown lib 300 (f i)))
    by (apply list_lookup_insert_eq, Hlt).
  destruct (bound_position_keeps st1 i _ Hm1)
    as (st2 & cs2 & Hb & _ & _ & Hlen & Hcalls & Hcs2 & _).
  exists st2, cs2. rewrite Run_halves, Hg, Hb, Hlen, Hcalls.
  cbn [st1 st rm calls app]. rewrite length_insert, length_fmap, length_seq.
  repeat split; try reflexivity; assumption.
Qed.

End MoreSetupFacts.

(** ** The further theorems at the sample data *)

Lemma setters_after_Divide_keep_store_witness :
  rm sample_sim !! 1%nat = Some (sample_cell 10 20 (-2250) 9 true (-5)) /\
  (diameter_ (base (sample_cell 10 20 (-2250) 9 true (-5))) <? 8) = false /\
  can_divide_ (sample_cell 10 20 (-2250) 9 true (-5)) = true /\
  exists daughter st1 st1',
    Divide sample_lib 1 sample_sim = Some (daughter, st1) /\
    growth_or_division sample_lib 1 sample_sim = Some (tt, st1') /\
    rm st1' = rm st1.
Proof.
  split; [reflexivity|]. split; [reflexivity|]. split; [reflexivity|].
  apply (setters_after_Divide_keep_store sample_lib sample_sim 1
           (sample_cell 10 20 (-2250) 9 true (-5)));
    reflexivity.
Defined.


Lemma Run_keeps_can_divide_witness :
  rm sample_sim !! 1%nat = Some (sample_cell 10 20 (-2250) 9 true (-5)) /\
  exists st2,
    Run sample_lib 1 sample_sim = Some (tt, st2) /\
    forall h c, rm st2 !! h = Some c ->
                can_divide_ c = match rm sample_sim !! h with
                                | Some c0 => can_divide_ c0
                                | None => true
                                end.
Proof.
  split; [reflexivity|].
  apply (Run_keeps_can_divide sample_lib sample_sim 1
           (sample_cell 10 20 (-2250) 9 true (-5))).
  reflexivity.
Defined.

Lemma Run_keeps_population_witness :
  rm sample_nan_sim !! 0%nat = Some (sample_cell 10 20 0 nan true 4) /\
  Forall (fun c => can_divide_ c = true /\ cell_color_ c = 4%Z)
         (rm sample_nan_sim) /\
  exists st2,
    Run sample_lib 0 sample_nan_sim = Some (tt, st2) /\
    Forall (fun c => can_divide_ c = true /\ cell_color_ c = 4%Z) (rm st2).
Proof.
  split; [reflexivity|].
  assert (Hall : Forall (fun c => can_divide_ c = true /\ cell_color_ c = 4%Z)
                        (rm sample_nan_sim)).
  { repeat constructor. }
  split; [exact Hall|].
  apply (Run_keeps_population sample_lib sample_nan_sim 0
           (sample_cell 10 20 0 nan true 4) 4 eq_refl Hall).
Defined.

Lemma Run_rest_only_moves_witness :
  rm sample_sim !! 2%nat = Some (sample_cell (-80) 0 (-2250) 8 false 1) /\
  (diameter_ (base (sample_cell (-80) 0 (-2250) 8 false 1)) <? 8) = false /\
  can_divide_ (sample_cell (-80) 0 (-2250) 8 false 1) = false /\
  exists st2,
    Run sample_lib 2 sample_sim = Some (tt, st2) /\
    rm st2 = <[2%nat := sample_cell (x_max + 0.01) 0 (-2250) 8 false 1]>
               (rm sample_sim).
Proof.
  split; [reflexivity|]. split; [reflexivity|]. split; [reflexivity|].
  destruct (Run_rest_only_moves sample_lib sample_sim 2
              (sample_cell (-80) 0 (-2250) 8 false 1)
              eq_refl eq_refl eq_refl)
    as (st2 & Hr & Hrm & _).
  exists st2. split; [exact Hr|]. rewrite Hrm. reflexivity.
Defined.

Lemma first_Run_grows_witness :
  (3 < num_cells)%nat /\
  exists st2 cs,
    Run sample_lib 3
        (handed_over (Simulate_setup sample_Uniform sample_cell_init
                                     (MkParam false 0 0 false) 0%Z))
      = Some (tt, st2) /\
    calls st2 = CallChangeVolume 3 300 :: cs /\
    forallb (is_SetPosition_of 3) cs = true /\
    length (rm st2) = num_cells.
Proof.
  assert (H : (3 < num_cells)%nat) by (unfold num_cells; lia).
  split; [exact H|].
  apply (first_Run_grows Z sample_Uniform sample_cell_init sample_lib
           (MkParam false 0 0 false) 0%Z 3 H).
Defined.

(** A position below the lower x margin is put above the upper margin by the
    first check and below it by the second. *)
Example check_bounds_twice_sample :
  check_bounds (Array3 (-80) 0 0) = (Array3 (x_max + 0.01) 0 0, true) /\
  check_bounds (Array3 (x_max + 0.01) 0 0) = (Array3 (x_max - 0.01) 0 0, true).
Proof. split; vm_compute; reflexivity. Qed.
